(** * Console workspace plugin controllers

    A shallow embedding of [api/controllers/console/workspace/plugin.py]:
    every [Resource] method of that module is a program over the calls
    it makes to its collaborators (decorators, the request parser, the
    plugin services), and the theorems below are about those programs. *)

From Stdlib Require Import ZArith String List Bool Lia.
From stdpp Require Import base option list strings gmap.

Open Scope string_scope.
Open Scope Z_scope.
Set Warnings "-register-all".

(** ** Python data *)

(** Plain Python data, as it arrives in a JSON body or a query string and
    as the plugin services hand it back. *)
Inductive value : Type :=
| VNone
| VBool (b : bool)
| VInt (z : Z)
| VStr (s : string)
| VList (l : list value)
| VDict (d : list (string * value)).

Definition bytes : Type := list Byte.byte.

(** [isinstance(v, str)] *)
Definition isinstance_str (v : value) : bool :=
  match v with VStr _ => true | _ => false end.

(** Dictionaries keep insertion order; the first binding of a key wins
    in a literal that never repeats a key. *)
Fixpoint dict_lookup {A} (k : string) (d : list (string * A)) : option A :=
  match d with
  | [] => None
  | (k', v) :: d' => if String.eqb k k' then Some v else dict_lookup k d'
  end.

Definition keys {A} (d : list (string * A)) : list string := map fst d.

(** ** Models (models.account) *)

(** Modelled from the spec: the enumerations and columns of
    [TenantPluginPermission]; the class is declared in [models.account].
    The spec gives install_permission and debug_permission the values
    everyone, admin_owner-only and noone. *)
Module TenantPluginPermission.
Module InstallPermission.
Inductive t := EVERYONE | ADMIN_OWNER_ONLY | NOONE.
Definition of_str (s : string) : option t :=
  if String.eqb s "everyone" then Some EVERYONE
  else if String.eqb s "admin_owner-only" then Some ADMIN_OWNER_ONLY
  else if String.eqb s "noone" then Some NOONE
  else None.
End InstallPermission.
Module DebugPermission.
Inductive t := EVERYONE | ADMIN_OWNER_ONLY | NOONE.
Definition of_str (s : string) : option t :=
  if String.eqb s "everyone" then Some EVERYONE
  else if String.eqb s "admin_owner-only" then Some ADMIN_OWNER_ONLY
  else if String.eqb s "noone" then Some NOONE
  else None.
End DebugPermission.
Record t := mk {
  install_permission : InstallPermission.t;
  debug_permission : DebugPermission.t
}.
End TenantPluginPermission.

(** Modelled from the spec: the enumerations and columns of
    [TenantPluginAutoUpgradeStrategy], declared in [models.account].
    The spec gives strategy_setting the values disabled, fix_only and all,
    and upgrade_mode the values exclude and include. *)
Module TenantPluginAutoUpgradeStrategy.
Module StrategySetting.
Inductive t := DISABLED | FIX_ONLY | ALL.
Definition of_str (s : string) : option t :=
  if String.eqb s "disabled" then Some DISABLED
  else if String.eqb s "fix_only" then Some FIX_ONLY
  else if String.eqb s "all" then Some ALL
  else None.
End StrategySetting.
Module UpgradeMode.
Inductive t := EXCLUDE | INCLUDE.
Definition of_str (s : string) : option t :=
  if String.eqb s "exclude" then Some EXCLUDE
  else if String.eqb s "include" then Some INCLUDE
  else None.
End UpgradeMode.
Record t := mk {
  strategy_setting : StrategySetting.t;
  upgrade_time_of_day : Z;
  upgrade_mode : UpgradeMode.t;
  exclude_plugins : list string;
  include_plugins : list string
}.
End TenantPluginAutoUpgradeStrategy.

(** The answer of [PluginService.list_with_total]: the code reads its
    [list] and [total] attributes. *)
Module PluginListResponse.
Record t := mk { list : value; total : value }.
End PluginListResponse.

(** Objects the methods build and return: plain data, members of the
    four enumerations, and dict literals over them. *)
Inductive pyobj : Type :=
| OVal (v : value)
| OInstallPermission (p : TenantPluginPermission.InstallPermission.t)
| ODebugPermission (p : TenantPluginPermission.DebugPermission.t)
| OStrategySetting (s : TenantPluginAutoUpgradeStrategy.StrategySetting.t)
| OUpgradeMode (m : TenantPluginAutoUpgradeStrategy.UpgradeMode.t)
| ODict (d : list (string * pyobj)).

(** What a method hands back to flask: a bare object, an object passed
    through [jsonable_encoder] (defined in core.model_runtime.utils.encoders
    and kept symbolic here), or the result of [send_file]. *)
Inductive response : Type :=
| plain (o : pyobj)
| jsonable_encoder (o : pyobj)
| send_file (data : bytes) (mimetype : string) (max_age : Z).

(** ** Exceptions *)

(** Modelled from the spec: the payload of a daemon error ("a single
    DaemonError carrying a machine-readable code and human message"); the
    exception class is declared in [core.plugin.impl.exc]. *)
Record DaemonError := mkDaemonError { code : string; message : string }.

Inductive exn : Type :=
| PluginDaemonClientSideError (e : DaemonError)
| ValueError (arg : exn_arg)
| Forbidden
| KeyError (key : string)
| AttributeError (attr : string)
| TypeError (msg : string)
| Exception (cls msg : string)
with exn_arg : Type :=
| Msg (s : string)
| Exc (e : exn)
| NotAValid (v : value) (cls : string).

Inductive result (A : Type) : Type :=
| Ok (a : A)
| Err (x : exn).
Arguments Ok {A} a.
Arguments Err {A} x.

(** ** Ambient state of a request *)

Record Config := {
  PLUGIN_REMOTE_INSTALL_HOST : string;
  PLUGIN_REMOTE_INSTALL_PORT : Z;
  PLUGIN_MAX_PACKAGE_SIZE : Z;
  PLUGIN_MAX_BUNDLE_SIZE : Z;
  TOOL_ICON_CACHE_MAX_AGE : Z
}.

Record Account := {
  id : string;
  current_tenant_id : string;
  is_admin_or_owner : bool
}.

(** An uploaded file as the code sees it before reading it. *)
Record FileStorage := { filename : string; content_length : Z }.

Record Ctx := {
  current_user : Account;
  files : list (string * FileStorage);
  dify_config : Config
}.

(** ** Request parser arguments *)

Inductive argtype := py_int | py_str | py_list | py_dict.
Inductive arglocation := loc_args | loc_json.

Record Argument := add_argument {
  arg_name : string;
  arg_type : argtype;
  arg_required : bool;
  arg_location : arglocation;
  arg_default : value
}.

(** ** Calls to collaborators

    Everything a method asks of code outside this module is a call; the
    index is the type of what the call gives back when it does not raise. *)
Inductive callE : Type -> Type :=
(* controllers.console.wraps, libs.login, controllers.console.workspace *)
| setup_required : callE unit
| login_required : callE unit
| account_initialization_required : callE unit
| plugin_permission_required (install_required debug_required : bool) : callE unit
(* flask_restful.reqparse, werkzeug, pydantic *)
| parse_args (arguments : list Argument) : callE (list (string * value))
| file_read (file : FileStorage) : callE bytes
| model_dump (manifest : value) : callE value
(* services.plugin.plugin_service.PluginService *)
| PluginService_get_debugging_key (tenant_id : string) : callE value
| PluginService_list_with_total (tenant_id : string) (page page_size : value)
    : callE PluginListResponse.t
| PluginService_list_latest_versions (plugin_ids : value) : callE value
| PluginService_list_installations_from_ids (tenant_id : string) (plugin_ids : value)
    : callE value
| PluginService_get_asset (tenant_id filename : value) : callE (bytes * string)
| PluginService_upload_pkg (tenant_id : string) (content : bytes) : callE value
| PluginService_upload_pkg_from_github (tenant_id : string) (repo version package : value)
    : callE value
| PluginService_upload_bundle (tenant_id : string) (content : bytes) : callE value
| PluginService_install_from_local_pkg (tenant_id : string)
    (plugin_unique_identifiers : value) : callE value
| PluginService_install_from_github (tenant_id : string)
    (plugin_unique_identifier repo version package : value) : callE value
| PluginService_install_from_marketplace_pkg (tenant_id : string)
    (plugin_unique_identifiers : value) : callE value
| PluginService_fetch_marketplace_pkg (tenant_id : string)
    (plugin_unique_identifier : value) : callE value
| PluginService_fetch_plugin_manifest (tenant_id : string)
    (plugin_unique_identifier : value) : callE value
| PluginService_fetch_install_tasks (tenant_id : string) (page page_size : value)
    : callE value
| PluginService_fetch_install_task (tenant_id task_id : string) : callE value
| PluginService_delete_install_task (tenant_id task_id : string) : callE value
| PluginService_delete_all_install_task_items (tenant_id : string) : callE value
| PluginService_delete_install_task_item (tenant_id task_id identifier : string)
    : callE value
| PluginService_upgrade_plugin_with_marketplace (tenant_id : string)
    (original_plugin_unique_identifier new_plugin_unique_identifier : value) : callE value
| PluginService_upgrade_plugin_with_github (tenant_id : string)
    (original_plugin_unique_identifier new_plugin_unique_identifier
     repo version package : value) : callE value
| PluginService_uninstall (tenant_id : string) (plugin_installation_id : value)
    : callE value
(* services.plugin.plugin_parameter_service.PluginParameterService *)
| PluginParameterService_get_dynamic_select_options (tenant_id user_id : string)
    (plugin_id provider action parameter provider_type : value) : callE value
(* services.plugin.plugin_permission_service.PluginPermissionService *)
| PluginPermissionService_change_permission (tenant_id : string)
    (install_permission : TenantPluginPermission.InstallPermission.t)
    (debug_permission : TenantPluginPermission.DebugPermission.t) : callE bool
| PluginPermissionService_get_permission (tenant_id : string)
    : callE (option TenantPluginPermission.t)
(* services.plugin.plugin_auto_upgrade_service.PluginAutoUpgradeService *)
| PluginAutoUpgradeService_change_strategy (tenant_id : string)
    (strategy_setting : TenantPluginAutoUpgradeStrategy.StrategySetting.t)
    (upgrade_time_of_day : value)
    (upgrade_mode : TenantPluginAutoUpgradeStrategy.UpgradeMode.t)
    (exclude_plugins include_plugins : value) : callE bool
| PluginAutoUpgradeService_get_strategy (tenant_id : string)
    : callE (option TenantPluginAutoUpgradeStrategy.t)
| PluginAutoUpgradeService_exclude_plugin (tenant_id : string) (plugin_id : value)
    : callE value.

(** ** Programs *)

(** A method body: it returns, raises, or makes a call and goes on with
    what the call gave (a value or an exception). *)
Inductive prog (A : Type) : Type :=
| Ret (a : A)
| Raise (x : exn)
| Call {X : Type} (c : callE X) (k : result X -> prog A).
Arguments Ret {A} a.
Arguments Raise {A} x.
Arguments Call {A X} c k.

Fixpoint bind {A B} (p : prog A) (f : A -> prog B) : prog B :=
  match p with
  | Ret a => f a
  | Raise x => Raise x
  | Call c k => Call c (fun r => bind (k r) f)
  end.

#[global] Instance prog_ret : MRet prog := @Ret.
#[global] Instance prog_bind : MBind prog := fun A B f p => bind p f.

(** A call outside any [try]: an exception it raises propagates. *)
Definition call {X} (c : callE X) : prog X :=
  Call c (fun r => match r with Ok x => Ret x | Err e => Raise e end).

(** [try: p  except PluginDaemonClientSideError as e: raise ValueError(e)] *)
Fixpoint try_except_daemon {A} (p : prog A) : prog A :=
  match p with
  | Ret a => Ret a
  | Raise (PluginDaemonClientSideError e) =>
      Raise (ValueError (Exc (PluginDaemonClientSideError e)))
  | Raise x => Raise x
  | Call c k => Call c (fun r => try_except_daemon (k r))
  end.

(** ** Running a program against an environment *)

(** One call as it happened: what was asked and what came back. *)
Inductive entry : Type :=
| Entry {X : Type} (c : callE X) (r : result X).

Definition Env (S : Type) : Type := forall X, callE X -> S -> result X * S.

Record run_result (S A : Type) : Type := mkRun {
  outcome : result A;
  final : S;
  trace : list entry
}.
Arguments mkRun {S A}.
Arguments outcome {S A}.
Arguments final {S A}.
Arguments trace {S A}.

Fixpoint run {S A} (env : Env S) (p : prog A) (s : S) : run_result S A :=
  match p with
  | Ret a => mkRun (Ok a) s []
  | Raise x => mkRun (Err x) s []
  | Call c k =>
      let '(r, s1) := env _ c s in
      match run env (k r) s1 with
      | mkRun out s2 tr => mkRun out s2 (Entry c r :: tr)
      end
  end.

(** ** Python operations the methods use *)

(** [d[k]] on the dict the parser gives back. *)
Definition getitem (d : list (string * value)) (k : string) : prog value :=
  match dict_lookup k d with
  | Some v => mret v
  | None => Raise (KeyError k)
  end.

(** [request.files[k]] *)
Definition request_files (ctx : Ctx) (k : string) : prog FileStorage :=
  match dict_lookup k (files ctx) with
  | Some f => mret f
  | None => Raise (KeyError k)
  end.

(** [d.get(k, default)] *)
Definition py_get (d : value) (k : string) (default : value) : prog value :=
  match d with
  | VDict kvs => mret (match dict_lookup k kvs with Some v => v | None => default end)
  | _ => Raise (AttributeError "get")
  end.

(** [d[k] = v] on a dict literal: an existing key keeps its place. *)
Fixpoint dict_set {A} (d : list (string * A)) (k : string) (v : A) : list (string * A) :=
  match d with
  | [] => [(k, v)]
  | (k', v') :: d' => if String.eqb k k' then (k', v) :: d' else (k', v') :: dict_set d' k v
  end.

(** What [for x in v] walks over. *)
Definition iter (v : value) : prog (list value) :=
  match v with
  | VList l => mret l
  | VStr s => mret (map (fun a => VStr (String a EmptyString)) (list_ascii_of_string s))
  | VDict d => mret (map VStr (keys d))
  | _ => Raise (TypeError "object is not iterable")
  end.

(** The loop
    [for plugin_unique_identifier in ...:
         if not isinstance(plugin_unique_identifier, str):
             raise ValueError("Invalid plugin unique identifier")] *)
Fixpoint check_plugin_unique_identifiers (l : list value) : prog unit :=
  match l with
  | [] => mret tt
  | plugin_unique_identifier :: l' =>
      if negb (isinstance_str plugin_unique_identifier)
      then Raise (ValueError (Msg "Invalid plugin unique identifier"))
      else check_plugin_unique_identifiers l'
  end.

(** Calling an enumeration class on a value looks the member up by value
    and raises ValueError when there is none. *)
Definition enum_call {E} (of_str : string -> option E) (cls : string) (v : value) : prog E :=
  match v with
  | VStr s => match of_str s with
              | Some m => mret m
              | None => Raise (ValueError (NotAValid v cls))
              end
  | _ => Raise (ValueError (NotAValid v cls))
  end.

Definition InstallPermission :=
  enum_call TenantPluginPermission.InstallPermission.of_str "InstallPermission".
Definition DebugPermission :=
  enum_call TenantPluginPermission.DebugPermission.of_str "DebugPermission".
Definition StrategySetting :=
  enum_call TenantPluginAutoUpgradeStrategy.StrategySetting.of_str "StrategySetting".
Definition UpgradeMode :=
  enum_call TenantPluginAutoUpgradeStrategy.UpgradeMode.of_str "UpgradeMode".

(** [if cond: raise x] *)
Definition raise_if (cond : bool) (x : exn) : prog unit :=
  if cond then Raise x else mret tt.

(** ** The resources *)

Definition PluginDebuggingKeyApi_get (ctx : Ctx) : prog response :=
  call setup_required;;
  call login_required;;
  call account_initialization_required;;
  call (plugin_permission_required false true);;
  let tenant_id := current_tenant_id (current_user ctx) in
  try_except_daemon (
    key ← call (PluginService_get_debugging_key tenant_id);
    mret (plain (ODict [
      ("key", OVal key);
      ("host", OVal (VStr (PLUGIN_REMOTE_INSTALL_HOST (dify_config ctx))));
      ("port", OVal (VInt (PLUGIN_REMOTE_INSTALL_PORT (dify_config ctx))))]))).

Definition PluginListApi_get (ctx : Ctx) : prog response :=
  call setup_required;;
  call login_required;;
  call account_initialization_required;;
  let tenant_id := current_tenant_id (current_user ctx) in
  args ← call (parse_args [
    add_argument "page" py_int false loc_args (VInt 1);
    add_argument "page_size" py_int false loc_args (VInt 256)]);
  plugins_with_total ← try_except_daemon (
    page ← getitem args "page";
    page_size ← getitem args "page_size";
    call (PluginService_list_with_total tenant_id page page_size));
  mret (jsonable_encoder (ODict [
    ("plugins", OVal (PluginListResponse.list plugins_with_total));
    ("total", OVal (PluginListResponse.total plugins_with_total))])).

Definition PluginListLatestVersionsApi_post (ctx : Ctx) : prog response :=
  call setup_required;;
  call login_required;;
  call account_initialization_required;;
  args ← call (parse_args [add_argument "plugin_ids" py_list true loc_json VNone]);
  versions ← try_except_daemon (
    plugin_ids ← getitem args "plugin_ids";
    call (PluginService_list_latest_versions plugin_ids));
  mret (jsonable_encoder (ODict [("versions", OVal versions)])).

Definition PluginListInstallationsFromIdsApi_post (ctx : Ctx) : prog response :=
  call setup_required;;
  call login_required;;
  call account_initialization_required;;
  let tenant_id := current_tenant_id (current_user ctx) in
  args ← call (parse_args [add_argument "plugin_ids" py_list true loc_json VNone]);
  plugins ← try_except_daemon (
    plugin_ids ← getitem args "plugin_ids";
    call (PluginService_list_installations_from_ids tenant_id plugin_ids));
  mret (jsonable_encoder (ODict [("plugins", OVal plugins)])).

Definition PluginIconApi_get (ctx : Ctx) : prog response :=
  call setup_required;;
  args ← call (parse_args [
    add_argument "tenant_id" py_str true loc_args VNone;
    add_argument "filename" py_str true loc_args VNone]);
  asset ← try_except_daemon (
    tenant_id ← getitem args "tenant_id";
    filename ← getitem args "filename";
    call (PluginService_get_asset tenant_id filename));
  let '(icon_bytes, mimetype) := asset in
  let icon_cache_max_age := TOOL_ICON_CACHE_MAX_AGE (dify_config ctx) in
  mret (send_file icon_bytes mimetype icon_cache_max_age).

Definition PluginUploadFromPkgApi_post (ctx : Ctx) : prog response :=
  call setup_required;;
  call login_required;;
  call account_initialization_required;;
  call (plugin_permission_required true false);;
  let tenant_id := current_tenant_id (current_user ctx) in
  file ← request_files ctx "pkg";
  raise_if (content_length file >? PLUGIN_MAX_PACKAGE_SIZE (dify_config ctx))
    (ValueError (Msg "File size exceeds the maximum allowed size"));;
  content ← call (file_read file);
  response ← try_except_daemon (call (PluginService_upload_pkg tenant_id content));
  mret (jsonable_encoder (OVal response)).

Definition PluginUploadFromGithubApi_post (ctx : Ctx) : prog response :=
  call setup_required;;
  call login_required;;
  call account_initialization_required;;
  call (plugin_permission_required true false);;
  let tenant_id := current_tenant_id (current_user ctx) in
  args ← call (parse_args [
    add_argument "repo" py_str true loc_json VNone;
    add_argument "version" py_str true loc_json VNone;
    add_argument "package" py_str true loc_json VNone]);
  response ← try_except_daemon (
    repo ← getitem args "repo";
    version ← getitem args "version";
    package ← getitem args "package";
    call (PluginService_upload_pkg_from_github tenant_id repo version package));
  mret (jsonable_encoder (OVal response)).

Definition PluginUploadFromBundleApi_post (ctx : Ctx) : prog response :=
  call setup_required;;
  call login_required;;
  call account_initialization_required;;
  call (plugin_permission_required true false);;
  let tenant_id := current_tenant_id (current_user ctx) in
  file ← request_files ctx "bundle";
  raise_if (content_length file >? PLUGIN_MAX_BUNDLE_SIZE (dify_config ctx))
    (ValueError (Msg "File size exceeds the maximum allowed size"));;
  content ← call (file_read file);
  response ← try_except_daemon (call (PluginService_upload_bundle tenant_id content));
  mret (jsonable_encoder (OVal response)).

Definition PluginInstallFromPkgApi_post (ctx : Ctx) : prog response :=
  call setup_required;;
  call login_required;;
  call account_initialization_required;;
  call (plugin_permission_required true false);;
  let tenant_id := current_tenant_id (current_user ctx) in
  args ← call (parse_args [
    add_argument "plugin_unique_identifiers" py_list true loc_json VNone]);
  plugin_unique_identifiers ← getitem args "plugin_unique_identifiers";
  items ← iter plugin_unique_identifiers;
  check_plugin_unique_identifiers items;;
  response ← try_except_daemon (
    plugin_unique_identifiers ← getitem args "plugin_unique_identifiers";
    call (PluginService_install_from_local_pkg tenant_id plugin_unique_identifiers));
  mret (jsonable_encoder (OVal response)).

Definition PluginInstallFromGithubApi_post (ctx : Ctx) : prog response :=
  call setup_required;;
  call login_required;;
  call account_initialization_required;;
  call (plugin_permission_required true false);;
  let tenant_id := current_tenant_id (current_user ctx) in
  args ← call (parse_args [
    add_argument "repo" py_str true loc_json VNone;
    add_argument "version" py_str true loc_json VNone;
    add_argument "package" py_str true loc_json VNone;
    add_argument "plugin_unique_identifier" py_str true loc_json VNone]);
  response ← try_except_daemon (
    plugin_unique_identifier ← getitem args "plugin_unique_identifier";
    repo ← getitem args "repo";
    version ← getitem args "version";
    package ← getitem args "package";
    call (PluginService_install_from_github tenant_id
            plugin_unique_identifier repo version package));
  mret (jsonable_encoder (OVal response)).

Definition PluginInstallFromMarketplaceApi_post (ctx : Ctx) : prog response :=
  call setup_required;;
  call login_required;;
  call account_initialization_required;;
  call (plugin_permission_required true false);;
  let tenant_id := current_tenant_id (current_user ctx) in
  args ← call (parse_args [
    add_argument "plugin_unique_identifiers" py_list true loc_json VNone]);
  plugin_unique_identifiers ← getitem args "plugin_unique_identifiers";
  items ← iter plugin_unique_identifiers;
  check_plugin_unique_identifiers items;;
  response ← try_except_daemon (
    plugin_unique_identifiers ← getitem args "plugin_unique_identifiers";
    call (PluginService_install_from_marketplace_pkg tenant_id plugin_unique_identifiers));
  mret (jsonable_encoder (OVal response)).

Definition PluginFetchMarketplacePkgApi_get (ctx : Ctx) : prog response :=
  call setup_required;;
  call login_required;;
  call account_initialization_required;;
  call (plugin_permission_required true false);;
  let tenant_id := current_tenant_id (current_user ctx) in
  args ← call (parse_args [
    add_argument "plugin_unique_identifier" py_str true loc_args VNone]);
  try_except_daemon (
    plugin_unique_identifier ← getitem args "plugin_unique_identifier";
    manifest ← call (PluginService_fetch_marketplace_pkg tenant_id plugin_unique_identifier);
    mret (jsonable_encoder (ODict [("manifest", OVal manifest)]))).

Definition PluginFetchManifestApi_get (ctx : Ctx) : prog response :=
  call setup_required;;
  call login_required;;
  call account_initialization_required;;
  call (plugin_permission_required true false);;
  let tenant_id := current_tenant_id (current_user ctx) in
  args ← call (parse_args [
    add_argument "plugin_unique_identifier" py_str true loc_args VNone]);
  try_except_daemon (
    plugin_unique_identifier ← getitem args "plugin_unique_identifier";
    manifest ← call (PluginService_fetch_plugin_manifest tenant_id plugin_unique_identifier);
    dumped ← call (model_dump manifest);
    mret (jsonable_encoder (ODict [("manifest", OVal dumped)]))).

Definition PluginFetchInstallTasksApi_get (ctx : Ctx) : prog response :=
  call setup_required;;
  call login_required;;
  call account_initialization_required;;
  call (plugin_permission_required true false);;
  let tenant_id := current_tenant_id (current_user ctx) in
  args ← call (parse_args [
    add_argument "page" py_int true loc_args VNone;
    add_argument "page_size" py_int true loc_args VNone]);
  try_except_daemon (
    page ← getitem args "page";
    page_size ← getitem args "page_size";
    tasks ← call (PluginService_fetch_install_tasks tenant_id page page_size);
    mret (jsonable_encoder (ODict [("tasks", OVal tasks)]))).

Definition PluginFetchInstallTaskApi_get (ctx : Ctx) (task_id : string) : prog response :=
  call setup_required;;
  call login_required;;
  call account_initialization_required;;
  call (plugin_permission_required true false);;
  let tenant_id := current_tenant_id (current_user ctx) in
  try_except_daemon (
    task ← call (PluginService_fetch_install_task tenant_id task_id);
    mret (jsonable_encoder (ODict [("task", OVal task)]))).

Definition PluginDeleteInstallTaskApi_post (ctx : Ctx) (task_id : string) : prog response :=
  call setup_required;;
  call login_required;;
  call account_initialization_required;;
  call (plugin_permission_required true false);;
  let tenant_id := current_tenant_id (current_user ctx) in
  try_except_daemon (
    success ← call (PluginService_delete_install_task tenant_id task_id);
    mret (plain (ODict [("success", OVal success)]))).

Definition PluginDeleteAllInstallTaskItemsApi_post (ctx : Ctx) : prog response :=
  call setup_required;;
  call login_required;;
  call account_initialization_required;;
  call (plugin_permission_required true false);;
  let tenant_id := current_tenant_id (current_user ctx) in
  try_except_daemon (
    success ← call (PluginService_delete_all_install_task_items tenant_id);
    mret (plain (ODict [("success", OVal success)]))).

Definition PluginDeleteInstallTaskItemApi_post (ctx : Ctx) (task_id identifier : string)
  : prog response :=
  call setup_required;;
  call login_required;;
  call account_initialization_required;;
  call (plugin_permission_required true false);;
  let tenant_id := current_tenant_id (current_user ctx) in
  try_except_daemon (
    success ← call (PluginService_delete_install_task_item tenant_id task_id identifier);
    mret (plain (ODict [("success", OVal success)]))).

Definition PluginUpgradeFromMarketplaceApi_post (ctx : Ctx) : prog response :=
  call setup_required;;
  call login_required;;
  call account_initialization_required;;
  call (plugin_permission_required true false);;
  let tenant_id := current_tenant_id (current_user ctx) in
  args ← call (parse_args [
    add_argument "original_plugin_unique_identifier" py_str true loc_json VNone;
    add_argument "new_plugin_unique_identifier" py_str true loc_json VNone]);
  try_except_daemon (
    original_plugin_unique_identifier ← getitem args "original_plugin_unique_identifier";
    new_plugin_unique_identifier ← getitem args "new_plugin_unique_identifier";
    upgraded ← call (PluginService_upgrade_plugin_with_marketplace tenant_id
                       original_plugin_unique_identifier new_plugin_unique_identifier);
    mret (jsonable_encoder (OVal upgraded))).

Definition PluginUpgradeFromGithubApi_post (ctx : Ctx) : prog response :=
  call setup_required;;
  call login_required;;
  call account_initialization_required;;
  call (plugin_permission_required true false);;
  let tenant_id := current_tenant_id (current_user ctx) in
  args ← call (parse_args [
    add_argument "original_plugin_unique_identifier" py_str true loc_json VNone;
    add_argument "new_plugin_unique_identifier" py_str true loc_json VNone;
    add_argument "repo" py_str true loc_json VNone;
    add_argument "version" py_str true loc_json VNone;
    add_argument "package" py_str true loc_json VNone]);
  try_except_daemon (
    original_plugin_unique_identifier ← getitem args "original_plugin_unique_identifier";
    new_plugin_unique_identifier ← getitem args "new_plugin_unique_identifier";
    repo ← getitem args "repo";
    version ← getitem args "version";
    package ← getitem args "package";
    upgraded ← call (PluginService_upgrade_plugin_with_github tenant_id
                       original_plugin_unique_identifier new_plugin_unique_identifier
                       repo version package);
    mret (jsonable_encoder (OVal upgraded))).

Definition PluginUninstallApi_post (ctx : Ctx) : prog response :=
  call setup_required;;
  call login_required;;
  call account_initialization_required;;
  call (plugin_permission_required true false);;
  args ← call (parse_args [
    add_argument "plugin_installation_id" py_str true loc_json VNone]);
  let tenant_id := current_tenant_id (current_user ctx) in
  try_except_daemon (
    plugin_installation_id ← getitem args "plugin_installation_id";
    success ← call (PluginService_uninstall tenant_id plugin_installation_id);
    mret (plain (ODict [("success", OVal success)]))).

Definition PluginChangePermissionApi_post (ctx : Ctx) : prog response :=
  call setup_required;;
  call login_required;;
  call account_initialization_required;;
  let user := current_user ctx in
  raise_if (negb (is_admin_or_owner user)) Forbidden;;
  args ← call (parse_args [
    add_argument "install_permission" py_str true loc_json VNone;
    add_argument "debug_permission" py_str true loc_json VNone]);
  install_permission ← getitem args "install_permission" ≫= InstallPermission;
  debug_permission ← getitem args "debug_permission" ≫= DebugPermission;
  let tenant_id := current_tenant_id user in
  success ← call (PluginPermissionService_change_permission tenant_id
                    install_permission debug_permission);
  mret (plain (ODict [("success", OVal (VBool success))])).

Definition PluginFetchPermissionApi_get (ctx : Ctx) : prog response :=
  call setup_required;;
  call login_required;;
  call account_initialization_required;;
  let tenant_id := current_tenant_id (current_user ctx) in
  permission ← call (PluginPermissionService_get_permission tenant_id);
  match permission with
  | None =>
      mret (jsonable_encoder (ODict [
        ("install_permission",
          OInstallPermission TenantPluginPermission.InstallPermission.EVERYONE);
        ("debug_permission",
          ODebugPermission TenantPluginPermission.DebugPermission.EVERYONE)]))
  | Some permission =>
      mret (jsonable_encoder (ODict [
        ("install_permission",
          OInstallPermission (TenantPluginPermission.install_permission permission));
        ("debug_permission",
          ODebugPermission (TenantPluginPermission.debug_permission permission))]))
  end.

Definition PluginFetchDynamicSelectOptionsApi_get (ctx : Ctx) : prog response :=
  call setup_required;;
  call login_required;;
  call account_initialization_required;;
  raise_if (negb (is_admin_or_owner (current_user ctx))) Forbidden;;
  let tenant_id := current_tenant_id (current_user ctx) in
  let user_id := id (current_user ctx) in
  args ← call (parse_args [
    add_argument "plugin_id" py_str true loc_args VNone;
    add_argument "provider" py_str true loc_args VNone;
    add_argument "action" py_str true loc_args VNone;
    add_argument "parameter" py_str true loc_args VNone;
    add_argument "provider_type" py_str true loc_args VNone]);
  options ← try_except_daemon (
    plugin_id ← getitem args "plugin_id";
    provider ← getitem args "provider";
    action ← getitem args "action";
    parameter ← getitem args "parameter";
    provider_type ← getitem args "provider_type";
    call (PluginParameterService_get_dynamic_select_options tenant_id user_id
            plugin_id provider action parameter provider_type));
  mret (jsonable_encoder (ODict [("options", OVal options)])).

Definition PluginChangePreferencesApi_post (ctx : Ctx) : prog response :=
  call setup_required;;
  call login_required;;
  call account_initialization_required;;
  let user := current_user ctx in
  raise_if (negb (is_admin_or_owner user)) Forbidden;;
  args ← call (parse_args [
    add_argument "permission" py_dict true loc_json VNone;
    add_argument "auto_upgrade" py_dict true loc_json VNone]);
  let tenant_id := current_tenant_id user in
  permission ← getitem args "permission";
  install_permission ←
    py_get permission "install_permission" (VStr "everyone") ≫= InstallPermission;
  debug_permission ←
    py_get permission "debug_permission" (VStr "everyone") ≫= DebugPermission;
  auto_upgrade ← getitem args "auto_upgrade";
  strategy_setting ←
    py_get auto_upgrade "strategy_setting" (VStr "fix_only") ≫= StrategySetting;
  upgrade_time_of_day ← py_get auto_upgrade "upgrade_time_of_day" (VInt 0);
  upgrade_mode ← py_get auto_upgrade "upgrade_mode" (VStr "exclude") ≫= UpgradeMode;
  exclude_plugins ← py_get auto_upgrade "exclude_plugins" (VList []);
  include_plugins ← py_get auto_upgrade "include_plugins" (VList []);
  (* set permission *)
  set_permission_result ← call (PluginPermissionService_change_permission tenant_id
                                  install_permission debug_permission);
  if negb set_permission_result then
    mret (jsonable_encoder (ODict [
      ("success", OVal (VBool false));
      ("message", OVal (VStr "Failed to set permission"))]))
  else
  (* set auto upgrade strategy *)
  set_auto_upgrade_strategy_result ← call (PluginAutoUpgradeService_change_strategy
    tenant_id strategy_setting upgrade_time_of_day upgrade_mode
    exclude_plugins include_plugins);
  if negb set_auto_upgrade_strategy_result then
    mret (jsonable_encoder (ODict [
      ("success", OVal (VBool false));
      ("message", OVal (VStr "Failed to set auto upgrade strategy"))]))
  else
  mret (jsonable_encoder (ODict [("success", OVal (VBool true))])).

Definition PluginFetchPreferencesApi_get (ctx : Ctx) : prog response :=
  call setup_required;;
  call login_required;;
  call account_initialization_required;;
  let tenant_id := current_tenant_id (current_user ctx) in
  permission ← call (PluginPermissionService_get_permission tenant_id);
  let permission_dict := [
    ("install_permission",
      OInstallPermission TenantPluginPermission.InstallPermission.EVERYONE);
    ("debug_permission",
      ODebugPermission TenantPluginPermission.DebugPermission.EVERYONE)] in
  let permission_dict :=
    match permission with
    | Some permission =>
        dict_set
          (dict_set permission_dict "install_permission"
             (OInstallPermission (TenantPluginPermission.install_permission permission)))
          "debug_permission"
          (ODebugPermission (TenantPluginPermission.debug_permission permission))
    | None => permission_dict
    end in
  auto_upgrade ← call (PluginAutoUpgradeService_get_strategy tenant_id);
  let auto_upgrade_dict := [
    ("strategy_setting",
      OStrategySetting TenantPluginAutoUpgradeStrategy.StrategySetting.DISABLED);
    ("upgrade_time_of_day", OVal (VInt 0));
    ("upgrade_mode", OUpgradeMode TenantPluginAutoUpgradeStrategy.UpgradeMode.EXCLUDE);
    ("exclude_plugins", OVal (VList []));
    ("include_plugins", OVal (VList []))] in
  let auto_upgrade_dict :=
    match auto_upgrade with
    | Some auto_upgrade => [
        ("strategy_setting",
          OStrategySetting (TenantPluginAutoUpgradeStrategy.strategy_setting auto_upgrade));
        ("upgrade_time_of_day",
          OVal (VInt (TenantPluginAutoUpgradeStrategy.upgrade_time_of_day auto_upgrade)));
        ("upgrade_mode",
          OUpgradeMode (TenantPluginAutoUpgradeStrategy.upgrade_mode auto_upgrade));
        ("exclude_plugins",
          OVal (VList (map VStr
            (TenantPluginAutoUpgradeStrategy.exclude_plugins auto_upgrade))));
        ("include_plugins",
          OVal (VList (map VStr
            (TenantPluginAutoUpgradeStrategy.include_plugins auto_upgrade))))]
    | None => auto_upgrade_dict
    end in
  mret (jsonable_encoder (ODict [
    ("permission", ODict permission_dict);
    ("auto_upgrade", ODict auto_upgrade_dict)])).

Definition PluginAutoUpgradeExcludePluginApi_post (ctx : Ctx) : prog response :=
  call setup_required;;
  call login_required;;
  call account_initialization_required;;
  (* exclude one single plugin *)
  let tenant_id := current_tenant_id (current_user ctx) in
  args ← call (parse_args [add_argument "plugin_id" py_str true loc_json VNone]);
  plugin_id ← getitem args "plugin_id";
  success ← call (PluginAutoUpgradeService_exclude_plugin tenant_id plugin_id);
  mret (jsonable_encoder (ODict [("success", OVal success)])).

(** ** Routing: [api.add_resource] *)

Inductive http_method := GET | POST.

(** The routes of the module, with the path parameters a route binds. *)
Inductive route : Type :=
| debugging_key
| plugin_list
| list_latest_versions
| list_installations_ids
| icon
| upload_pkg
| upload_github
| upload_bundle
| install_pkg
| install_github
| upgrade_marketplace
| upgrade_github
| install_marketplace
| fetch_manifest
| tasks
| tasks_task (task_id : string)
| tasks_task_delete (task_id : string)
| tasks_delete_all
| tasks_task_delete_item (task_id identifier : string)
| uninstall
| marketplace_pkg
| permission_change
| permission_fetch
| parameters_dynamic_options
| preferences_fetch
| preferences_change
| preferences_autoupgrade_exclude.

Definition path (r : route) : string :=
  match r with
  | debugging_key => "/workspaces/current/plugin/debugging-key"
  | plugin_list => "/workspaces/current/plugin/list"
  | list_latest_versions => "/workspaces/current/plugin/list/latest-versions"
  | list_installations_ids => "/workspaces/current/plugin/list/installations/ids"
  | icon => "/workspaces/current/plugin/icon"
  | upload_pkg => "/workspaces/current/plugin/upload/pkg"
  | upload_github => "/workspaces/current/plugin/upload/github"
  | upload_bundle => "/workspaces/current/plugin/upload/bundle"
  | install_pkg => "/workspaces/current/plugin/install/pkg"
  | install_github => "/workspaces/current/plugin/install/github"
  | upgrade_marketplace => "/workspaces/current/plugin/upgrade/marketplace"
  | upgrade_github => "/workspaces/current/plugin/upgrade/github"
  | install_marketplace => "/workspaces/current/plugin/install/marketplace"
  | fetch_manifest => "/workspaces/current/plugin/fetch-manifest"
  | tasks => "/workspaces/current/plugin/tasks"
  | tasks_task task_id => "/workspaces/current/plugin/tasks/" +:+ task_id
  | tasks_task_delete task_id =>
      "/workspaces/current/plugin/tasks/" +:+ task_id +:+ "/delete"
  | tasks_delete_all => "/workspaces/current/plugin/tasks/delete_all"
  | tasks_task_delete_item task_id identifier =>
      "/workspaces/current/plugin/tasks/" +:+ task_id +:+ "/delete/" +:+ identifier
  | uninstall => "/workspaces/current/plugin/uninstall"
  | marketplace_pkg => "/workspaces/current/plugin/marketplace/pkg"
  | permission_change => "/workspaces/current/plugin/permission/change"
  | permission_fetch => "/workspaces/current/plugin/permission/fetch"
  | parameters_dynamic_options => "/workspaces/current/plugin/parameters/dynamic-options"
  | preferences_fetch => "/workspaces/current/plugin/preferences/fetch"
  | preferences_change => "/workspaces/current/plugin/preferences/change"
  | preferences_autoupgrade_exclude =>
      "/workspaces/current/plugin/preferences/autoupgrade/exclude"
  end.

(** The method each resource defines and its body. *)
Definition resource (r : route) : http_method * (Ctx -> prog response) :=
  match r with
  | debugging_key => (GET, PluginDebuggingKeyApi_get)
  | plugin_list => (GET, PluginListApi_get)
  | list_latest_versions => (POST, PluginListLatestVersionsApi_post)
  | list_installations_ids => (POST, PluginListInstallationsFromIdsApi_post)
  | icon => (GET, PluginIconApi_get)
  | upload_pkg => (POST, PluginUploadFromPkgApi_post)
  | upload_github => (POST, PluginUploadFromGithubApi_post)
  | upload_bundle => (POST, PluginUploadFromBundleApi_post)
  | install_pkg => (POST, PluginInstallFromPkgApi_post)
  | install_github => (POST, PluginInstallFromGithubApi_post)
  | upgrade_marketplace => (POST, PluginUpgradeFromMarketplaceApi_post)
  | upgrade_github => (POST, PluginUpgradeFromGithubApi_post)
  | install_marketplace => (POST, PluginInstallFromMarketplaceApi_post)
  | fetch_manifest => (GET, PluginFetchManifestApi_get)
  | tasks => (GET, PluginFetchInstallTasksApi_get)
  | tasks_task task_id => (GET, fun ctx => PluginFetchInstallTaskApi_get ctx task_id)
  | tasks_task_delete task_id =>
      (POST, fun ctx => PluginDeleteInstallTaskApi_post ctx task_id)
  | tasks_delete_all => (POST, PluginDeleteAllInstallTaskItemsApi_post)
  | tasks_task_delete_item task_id identifier =>
      (POST, fun ctx => PluginDeleteInstallTaskItemApi_post ctx task_id identifier)
  | uninstall => (POST, PluginUninstallApi_post)
  | marketplace_pkg => (GET, PluginFetchMarketplacePkgApi_get)
  | permission_change => (POST, PluginChangePermissionApi_post)
  | permission_fetch => (GET, PluginFetchPermissionApi_get)
  | parameters_dynamic_options => (GET, PluginFetchDynamicSelectOptionsApi_get)
  | preferences_fetch => (GET, PluginFetchPreferencesApi_get)
  | preferences_change => (POST, PluginChangePreferencesApi_post)
  | preferences_autoupgrade_exclude => (POST, PluginAutoUpgradeExcludePluginApi_post)
  end.

Definition operation (r : route) (ctx : Ctx) : prog response := snd (resource r) ctx.

(** ** Reading a trace *)

(** Calls that reach the plugin daemon: the methods of [PluginService] and
    [PluginParameterService], the ones the module wraps in
    [try ... except PluginDaemonClientSideError]. *)
Definition is_daemon_call {X} (c : callE X) : bool :=
  match c with
  | setup_required | login_required | account_initialization_required
  | plugin_permission_required _ _ | parse_args _ | file_read _ | model_dump _
  | PluginPermissionService_change_permission _ _ _
  | PluginPermissionService_get_permission _
  | PluginAutoUpgradeService_change_strategy _ _ _ _ _ _
  | PluginAutoUpgradeService_get_strategy _
  | PluginAutoUpgradeService_exclude_plugin _ _ => false
  | _ => true
  end.

Definition is_file_read {X} (c : callE X) : bool :=
  match c with file_read _ => true | _ => false end.

(** Calls that write a tenant's auto-upgrade strategy. *)
Definition writes_strategy {X} (c : callE X) : bool :=
  match c with
  | PluginAutoUpgradeService_change_strategy _ _ _ _ _ _
  | PluginAutoUpgradeService_exclude_plugin _ _ => true
  | _ => false
  end.

Definition entry_daemon (en : entry) : bool :=
  match en with Entry c _ => is_daemon_call c end.

Definition entry_file_read (en : entry) : bool :=
  match en with Entry c _ => is_file_read c end.

Definition entry_writes_strategy (en : entry) : bool :=
  match en with Entry c _ => writes_strategy c end.

(** The call came back without raising. *)
Definition entry_ok (en : entry) : bool :=
  match en with Entry _ (Ok _) => true | Entry _ (Err _) => false end.

(** The daemon error a call came back with, if it did. *)
Definition reported (en : entry) : option DaemonError :=
  match en with
  | Entry _ (Err (PluginDaemonClientSideError e)) => Some e
  | _ => None
  end.

Definition entry_parsed (en : entry) : option (list (string * value)) :=
  match en with
  | Entry c r =>
      match c in callE X return result X -> option (list (string * value)) with
      | parse_args _ => fun r => match r with Ok args => Some args | Err _ => None end
      | _ => fun _ => None
      end r
  end.

(** The dict the request parser gave back in this run. *)
Definition parsed (tr : list entry) : option (list (string * value)) :=
  head (omap entry_parsed tr).

Definition entry_file_content (en : entry) : option (FileStorage * bytes) :=
  match en with
  | Entry c r =>
      match c in callE X return result X -> option (FileStorage * bytes) with
      | file_read f => fun r => match r with Ok b => Some (f, b) | Err _ => None end
      | _ => fun _ => None
      end r
  end.

Definition entry_permission_read (en : entry)
  : option (string * result (option TenantPluginPermission.t)) :=
  match en with
  | Entry c r =>
      match c in callE X
            return result X -> option (string * result (option TenantPluginPermission.t))
      with
      | PluginPermissionService_get_permission t => fun r => Some (t, r)
      | _ => fun _ => None
      end r
  end.

Definition entry_strategy_read (en : entry)
  : option (string * result (option TenantPluginAutoUpgradeStrategy.t)) :=
  match en with
  | Entry c r =>
      match c in callE X
            return result X ->
                   option (string * result (option TenantPluginAutoUpgradeStrategy.t))
      with
      | PluginAutoUpgradeService_get_strategy t => fun r => Some (t, r)
      | _ => fun _ => None
      end r
  end.

(** A call of [PluginPermissionService.change_permission] with what it gave. *)
Record permission_write := mkPermissionWrite {
  pw_tenant_id : string;
  pw_install_permission : TenantPluginPermission.InstallPermission.t;
  pw_debug_permission : TenantPluginPermission.DebugPermission.t;
  pw_result : result bool
}.

(** A call of [PluginAutoUpgradeService.change_strategy] with what it gave. *)
Record strategy_write := mkStrategyWrite {
  sw_tenant_id : string;
  sw_strategy_setting : TenantPluginAutoUpgradeStrategy.StrategySetting.t;
  sw_upgrade_time_of_day : value;
  sw_upgrade_mode : TenantPluginAutoUpgradeStrategy.UpgradeMode.t;
  sw_exclude_plugins : value;
  sw_include_plugins : value;
  sw_result : result bool
}.

Definition entry_permission_write (en : entry) : option permission_write :=
  match en with
  | Entry c r =>
      match c in callE X return result X -> option permission_write with
      | PluginPermissionService_change_permission t ip dp =>
          fun r => Some (mkPermissionWrite t ip dp r)
      | _ => fun _ => None
      end r
  end.

Definition entry_strategy_write (en : entry) : option strategy_write :=
  match en with
  | Entry c r =>
      match c in callE X return result X -> option strategy_write with
      | PluginAutoUpgradeService_change_strategy t ss tod um ex inc =>
          fun r => Some (mkStrategyWrite t ss tod um ex inc r)
      | _ => fun _ => None
      end r
  end.

Definition permission_reads (tr : list entry) := omap entry_permission_read tr.
Definition strategy_reads (tr : list entry) := omap entry_strategy_read tr.
Definition permission_writes (tr : list entry) := omap entry_permission_write tr.
Definition strategy_writes (tr : list entry) := omap entry_strategy_write tr.

(** ** A reference environment

    A concrete world to run the methods in: the two per-tenant stores and
    stand-ins for the other collaborators. *)

Record World := mkWorld {
  permissions : gmap string TenantPluginPermission.t;
  strategies : gmap string TenantPluginAutoUpgradeStrategy.t
}.

(** What varies from one request to the next. *)
Record Scenario := mkScenario {
  (* the arguments the client sent, by name, after the parser's conversion *)
  request_args : list (string * value);
  (* the content of the uploaded file *)
  stream : bytes;
  (* when set, the daemon refuses every call with this error *)
  daemon_error : option DaemonError;
  (* whether a write to the permission store goes through *)
  permission_store_ok : bool
}.

(** A stand-in for the request parser of flask_restful: a required
    argument that is absent aborts the request, an optional one takes its
    default, and a value that was sent is kept as it is. *)
Fixpoint ref_parse_args (sent : list (string * value)) (arguments : list Argument)
  : result (list (string * value)) :=
  match arguments with
  | [] => Ok []
  | a :: rest =>
      match ref_parse_args sent rest with
      | Err x => Err x
      | Ok parsed_rest =>
          match dict_lookup (arg_name a) sent with
          | Some v => Ok ((arg_name a, v) :: parsed_rest)
          | None =>
              if arg_required a then Err (Exception "BadRequest" (arg_name a))
              else Ok ((arg_name a, arg_default a) :: parsed_rest)
          end
      end
  end.

Fixpoint strs_of (l : list value) : option (list string) :=
  match l with
  | [] => Some []
  | VStr s :: l' => match strs_of l' with Some r => Some (s :: r) | None => None end
  | _ => None
  end.

Definition ref_daemon {X} (sc : Scenario) (payload : X) : result X :=
  match daemon_error sc with
  | Some e => Err (PluginDaemonClientSideError e)
  | None => Ok payload
  end.

(** Modelled from the spec: [set_permission], [get_permission],
    [set_strategy], [get_strategy] and [exclude_plugin] of the policy store
    (services.plugin.plugin_permission_service and
    services.plugin.plugin_auto_upgrade_service): one record per tenant,
    absent until first written; [exclude_plugin] adds the id to the exclude
    list once and switches the mode to exclude. *)
Definition ref_change_permission (sc : Scenario) (t : string)
    (ip : TenantPluginPermission.InstallPermission.t)
    (dp : TenantPluginPermission.DebugPermission.t) (w : World) : result bool * World :=
  if permission_store_ok sc
  then (Ok true, mkWorld (<[t := TenantPluginPermission.mk ip dp]> (permissions w))
                         (strategies w))
  else (Ok false, w).

Definition ref_change_strategy (t : string)
    (ss : TenantPluginAutoUpgradeStrategy.StrategySetting.t) (tod : value)
    (um : TenantPluginAutoUpgradeStrategy.UpgradeMode.t) (ex inc : value) (w : World)
  : result bool * World :=
  match tod, ex, inc with
  | VInt z, VList exl, VList incl =>
      match strs_of exl, strs_of incl with
      | Some exs, Some incs =>
          (Ok true,
           mkWorld (permissions w)
             (<[t := TenantPluginAutoUpgradeStrategy.mk ss z um exs incs]> (strategies w)))
      | _, _ => (Ok false, w)
      end
  | _, _, _ => (Ok false, w)
  end.

Definition ref_exclude_plugin (t : string) (plugin_id : value) (w : World)
  : result value * World :=
  match plugin_id with
  | VStr pid =>
      let cur := default
        (TenantPluginAutoUpgradeStrategy.mk
           TenantPluginAutoUpgradeStrategy.StrategySetting.DISABLED 0
           TenantPluginAutoUpgradeStrategy.UpgradeMode.EXCLUDE [] [])
        (strategies w !! t) in
      let excluded :=
        match TenantPluginAutoUpgradeStrategy.upgrade_mode cur with
        | TenantPluginAutoUpgradeStrategy.UpgradeMode.EXCLUDE =>
            if bool_decide (pid ∈ TenantPluginAutoUpgradeStrategy.exclude_plugins cur)
            then TenantPluginAutoUpgradeStrategy.exclude_plugins cur
            else (TenantPluginAutoUpgradeStrategy.exclude_plugins cur ++ [pid])%list
        | TenantPluginAutoUpgradeStrategy.UpgradeMode.INCLUDE => [pid]
        end in
      (Ok (VBool true),
       mkWorld (permissions w)
         (<[t := TenantPluginAutoUpgradeStrategy.mk
                   (TenantPluginAutoUpgradeStrategy.strategy_setting cur)
                   (TenantPluginAutoUpgradeStrategy.upgrade_time_of_day cur)
                   TenantPluginAutoUpgradeStrategy.UpgradeMode.EXCLUDE
                   excluded
                   (TenantPluginAutoUpgradeStrategy.include_plugins cur)]> (strategies w)))
  | _ => (Ok (VBool false), w)
  end.

Definition ref_env (sc : Scenario) : Env World :=
  fun X c =>
    match c in callE X return World -> result X * World with
    | setup_required | login_required | account_initialization_required
    | plugin_permission_required _ _ => fun w => (Ok tt, w)
    | parse_args arguments => fun w => (ref_parse_args (request_args sc) arguments, w)
    | file_read _ => fun w => (Ok (stream sc), w)
    | model_dump m => fun w => (Ok m, w)
    | PluginService_list_with_total _ _ _ =>
        fun w => (ref_daemon sc (PluginListResponse.mk (VList [VStr "plugin"]) (VInt 1)), w)
    | PluginService_get_asset _ _ => fun w => (ref_daemon sc (stream sc, "image/png"), w)
    | PluginPermissionService_change_permission t ip dp => ref_change_permission sc t ip dp
    | PluginPermissionService_get_permission t => fun w => (Ok (permissions w !! t), w)
    | PluginAutoUpgradeService_change_strategy t ss tod um ex inc =>
        ref_change_strategy t ss tod um ex inc
    | PluginAutoUpgradeService_get_strategy t => fun w => (Ok (strategies w !! t), w)
    | PluginAutoUpgradeService_exclude_plugin t plugin_id => ref_exclude_plugin t plugin_id
    | PluginService_get_debugging_key _
    | PluginService_list_latest_versions _
    | PluginService_list_installations_from_ids _ _
    | PluginService_upload_pkg _ _
    | PluginService_upload_pkg_from_github _ _ _ _
    | PluginService_upload_bundle _ _
    | PluginService_install_from_local_pkg _ _
    | PluginService_install_from_github _ _ _ _ _
    | PluginService_install_from_marketplace_pkg _ _
    | PluginService_fetch_marketplace_pkg _ _
    | PluginService_fetch_plugin_manifest _ _
    | PluginService_fetch_install_tasks _ _ _
    | PluginService_fetch_install_task _ _
    | PluginService_delete_install_task _ _
    | PluginService_delete_all_install_task_items _
    | PluginService_delete_install_task_item _ _ _
    | PluginService_upgrade_plugin_with_marketplace _ _ _
    | PluginService_upgrade_plugin_with_github _ _ _ _ _ _
    | PluginService_uninstall _ _
    | PluginParameterService_get_dynamic_select_options _ _ _ _ _ _ _ =>
        fun w => (ref_daemon sc (VStr "ok"), w)
    end.

Definition empty_world : World := mkWorld ∅ ∅.

Definition example_config : Config := {|
  PLUGIN_REMOTE_INSTALL_HOST := "localhost";
  PLUGIN_REMOTE_INSTALL_PORT := 5003;
  PLUGIN_MAX_PACKAGE_SIZE := 100;
  PLUGIN_MAX_BUNDLE_SIZE := 200;
  TOOL_ICON_CACHE_MAX_AGE := 604800
|}.

Definition member : Account :=
  {| id := "u-2"; current_tenant_id := "tenant-1"; is_admin_or_owner := false |}.
Definition owner : Account :=
  {| id := "u-1"; current_tenant_id := "tenant-1"; is_admin_or_owner := true |}.

Definition example_ctx (user : Account) (uploads : list (string * FileStorage)) : Ctx :=
  {| current_user := user; files := uploads; dify_config := example_config |}.

Definition quiet (sent : list (string * value)) : Scenario :=
  mkScenario sent [Byte.x50; Byte.x4b] None true.

(** ** Families of routes and vocabulary for the statements *)

(** The two paginated listings. *)
Inductive list_endpoint := plugins_page | tasks_page.

Definition list_operation (e : list_endpoint) : Ctx -> prog response :=
  match e with
  | plugins_page => PluginListApi_get
  | tasks_page => PluginFetchInstallTasksApi_get
  end.

(** The two uploads with a size limit. *)
Inductive upload_kind := pkg | bundle.

Definition upload_operation (k : upload_kind) : Ctx -> prog response :=
  match k with
  | pkg => PluginUploadFromPkgApi_post
  | bundle => PluginUploadFromBundleApi_post
  end.

Definition upload_field (k : upload_kind) : string :=
  match k with pkg => "pkg" | bundle => "bundle" end.

Definition upload_limit (k : upload_kind) (cfg : Config) : Z :=
  match k with
  | pkg => PLUGIN_MAX_PACKAGE_SIZE cfg
  | bundle => PLUGIN_MAX_BUNDLE_SIZE cfg
  end.

Definition upload_call (k : upload_kind) : string -> bytes -> callE value :=
  match k with
  | pkg => PluginService_upload_pkg
  | bundle => PluginService_upload_bundle
  end.

(** The two batch installs. *)
Inductive install_source := local_pkg | marketplace.

Definition install_operation (src : install_source) : Ctx -> prog response :=
  match src with
  | local_pkg => PluginInstallFromPkgApi_post
  | marketplace => PluginInstallFromMarketplaceApi_post
  end.

(** The two routes that change tenant policy behind a role check. *)
Inductive policy_change := change_permission | change_preferences.

Definition policy_operation (pc : policy_change) : Ctx -> prog response :=
  match pc with
  | change_permission => PluginChangePermissionApi_post
  | change_preferences => PluginChangePreferencesApi_post
  end.

(** The two routes that read the tenant permission. *)
Inductive permission_fetch_kind := fetch_permission | fetch_preferences.

Definition permission_fetch_operation (k : permission_fetch_kind) : Ctx -> prog response :=
  match k with
  | fetch_permission => PluginFetchPermissionApi_get
  | fetch_preferences => PluginFetchPreferencesApi_get
  end.

(** Whether a returned object is a dict with the given key. *)
Definition has_field (k : string) (resp : response) : bool :=
  match resp with
  | plain (ODict d) | jsonable_encoder (ODict d) => bool_decide (is_Some (dict_lookup k d))
  | _ => false
  end.

(** What a method makes of the answer of a call made inside its [try]:
    a value goes on, a daemon error becomes a ValueError around it, any
    other exception propagates. *)
Definition through_try {A B} (ans : result A) (f : A -> B) : result B :=
  match ans with
  | Ok a => Ok (f a)
  | Err (PluginDaemonClientSideError e) =>
      Err (ValueError (Exc (PluginDaemonClientSideError e)))
  | Err x => Err x
  end.

(** The trace of the decorators when each lets the request through. *)
Definition member_decorators_passed : list entry := [
  Entry setup_required (Ok tt);
  Entry login_required (Ok tt);
  Entry account_initialization_required (Ok tt)].

Definition install_decorators_passed : list entry :=
  (member_decorators_passed ++ [Entry (plugin_permission_required true false) (Ok tt)])%list.

(** An error [x] surfaced to the caller carries the daemon error [e]:
    it is the daemon's exception itself or a ValueError whose argument is
    that exception. *)
Definition carries (x : exn) (e : DaemonError) : Prop :=
  x = PluginDaemonClientSideError e \/ x = ValueError (Exc (PluginDaemonClientSideError e)).

(** A run stops at the first daemon error reported to it and surfaces it. *)
Fixpoint surfaces {A} (tr : list entry) (out : result A) : Prop :=
  match tr with
  | [] => True
  | en :: tr' =>
      match reported en with
      | Some e =>
          tr' = [] /\
          (exists x, out = Err x /\ carries x e) /\
          (entry_daemon en = true ->
           out = Err (ValueError (Exc (PluginDaemonClientSideError e))))
      | None => surfaces tr' out
      end
  end.

(** What [d.get(k, default)] gives on a dict. *)
Definition get_or (d : list (string * value)) (k : string) (default : value) : value :=
  match dict_lookup k d with Some v => v | None => default end.

(** The member an enumeration class gives for a value, if any. *)
Definition member_of {E} (of_str : string -> option E) (v : value) : option E :=
  match v with VStr s => of_str s | _ => None end.

(** The same request made by a user with another role. *)
Definition with_role (b : bool) (ctx : Ctx) : Ctx :=
  {| current_user := {| id := id (current_user ctx);
                        current_tenant_id := current_tenant_id (current_user ctx);
                        is_admin_or_owner := b |};
     files := files ctx;
     dify_config := dify_config ctx |}.

(** ** Example requests and worlds *)

Definition big_pkg : FileStorage := {| filename := "big.difypkg"; content_length := 101 |}.

Definition small_bundle : FileStorage :=
  {| filename := "two.difybndl"; content_length := 200 |}.

Definition mixed_identifiers : list value := [VStr "langgenius/openai:0.0.1"; VInt 7].

Definition everyone_everyone : TenantPluginPermission.t :=
  TenantPluginPermission.mk TenantPluginPermission.InstallPermission.EVERYONE
                            TenantPluginPermission.DebugPermission.EVERYONE.

Definition explicit_world : World := mkWorld {[ "tenant-1" := everyone_everyone ]} ∅.

Definition not_found : DaemonError :=
  mkDaemonError "plugin_not_found" "plugin installation inst-1 does not exist".

Definition refusing (sent : list (string * value)) : Scenario :=
  mkScenario sent [] (Some not_found) true.

Definition store_down (sent : list (string * value)) : Scenario :=
  mkScenario sent [] None false.

Definition empty_preferences : list (string * value) :=
  [("permission", VDict []); ("auto_upgrade", VDict [])].

Definition old_strategy : TenantPluginAutoUpgradeStrategy.t :=
  TenantPluginAutoUpgradeStrategy.mk
    TenantPluginAutoUpgradeStrategy.StrategySetting.ALL 90
    TenantPluginAutoUpgradeStrategy.UpgradeMode.INCLUDE [] ["langgenius/openai"].

Definition configured_world : World :=
  mkWorld ∅ {[ "tenant-1" := old_strategy ]}.

(** ** Vocabulary for properties of all routes *)

Definition is_decorator {X} (c : callE X) : bool :=
  match c with
  | setup_required | login_required | account_initialization_required
  | plugin_permission_required _ _ => true
  | _ => false
  end.

Definition is_permission_check {X} (c : callE X) : bool :=
  match c with plugin_permission_required _ _ => true | _ => false end.

(** Calls to the service layer: everything but the decorators, the
    request parser, the file stream and pydantic. *)
Definition is_service_call {X} (c : callE X) : bool :=
  match c with
  | setup_required | login_required | account_initialization_required
  | plugin_permission_required _ _ | parse_args _ | file_read _ | model_dump _ => false
  | _ => true
  end.

Definition is_parse {X} (c : callE X) : bool :=
  match c with parse_args _ => true | _ => false end.

Definition entry_decorator (en : entry) : bool :=
  match en with Entry c _ => is_decorator c end.

Definition entry_permission_check (en : entry) : bool :=
  match en with Entry c _ => is_permission_check c end.

Definition entry_service (en : entry) : bool :=
  match en with Entry c _ => is_service_call c end.

Definition entry_parse_failed (en : entry) : bool :=
  match en with Entry c r => is_parse c && negb (entry_ok (Entry c r)) end.

(** The exception a call came back with, if it raised. *)
Definition raised (en : entry) : option exn :=
  match en with Entry _ (Err x) => Some x | Entry _ (Ok _) => None end.

(** The run got past the decorators into the body of the method. *)
Definition reaches_body (tr : list entry) : bool :=
  existsb (fun en => negb (entry_decorator en)) tr.

Definition daemon_calls (tr : list entry) : nat :=
  length (List.filter entry_daemon tr).

(** The tenant a service call is made for, when the call takes one as
    its own argument (the icon lookup takes it from the query string). *)
Definition call_tenant {X} (c : callE X) : option string :=
  match c with
  | PluginService_get_debugging_key t => Some t
  | PluginService_list_with_total t _ _ => Some t
  | PluginService_list_installations_from_ids t _ => Some t
  | PluginService_upload_pkg t _ => Some t
  | PluginService_upload_pkg_from_github t _ _ _ => Some t
  | PluginService_upload_bundle t _ => Some t
  | PluginService_install_from_local_pkg t _ => Some t
  | PluginService_install_from_github t _ _ _ _ => Some t
  | PluginService_install_from_marketplace_pkg t _ => Some t
  | PluginService_fetch_marketplace_pkg t _ => Some t
  | PluginService_fetch_plugin_manifest t _ => Some t
  | PluginService_fetch_install_tasks t _ _ => Some t
  | PluginService_fetch_install_task t _ => Some t
  | PluginService_delete_install_task t _ => Some t
  | PluginService_delete_all_install_task_items t => Some t
  | PluginService_delete_install_task_item t _ _ => Some t
  | PluginService_upgrade_plugin_with_marketplace t _ _ => Some t
  | PluginService_upgrade_plugin_with_github t _ _ _ _ _ => Some t
  | PluginService_uninstall t _ => Some t
  | PluginParameterService_get_dynamic_select_options t _ _ _ _ _ _ => Some t
  | PluginPermissionService_change_permission t _ _ => Some t
  | PluginPermissionService_get_permission t => Some t
  | PluginAutoUpgradeService_change_strategy t _ _ _ _ _ => Some t
  | PluginAutoUpgradeService_get_strategy t => Some t
  | PluginAutoUpgradeService_exclude_plugin t _ => Some t
  | _ => None
  end.

Definition entry_tenant (en : entry) : option string :=
  match en with Entry c _ => call_tenant c end.

(** Routes whose resource carries [@login_required] and
    [@account_initialization_required]. *)
Definition requires_login (rt : route) : bool :=
  match rt with icon => false | _ => true end.

(** Routes whose resource carries
    [@plugin_permission_required(install_required=True)]. *)
Definition requires_install_permission (rt : route) : bool :=
  match rt with
  | upload_pkg | upload_github | upload_bundle
  | install_pkg | install_github | install_marketplace
  | upgrade_marketplace | upgrade_github
  | fetch_manifest | marketplace_pkg
  | tasks | tasks_task _ | tasks_task_delete _ | tasks_delete_all
  | tasks_task_delete_item _ _ | uninstall => true
  | _ => false
  end.

(** Routes that serve the tenant's plugin policy. *)
Definition is_policy_route (rt : route) : bool :=
  match rt with
  | permission_change | permission_fetch
  | preferences_fetch | preferences_change | preferences_autoupgrade_exclude => true
  | _ => false
  end.

(** A run stops at the first call that raises; an exception that is not
    a daemon client-side error reaches the caller as it is. *)
Fixpoint stops_at_error {A} (tr : list entry) (out : result A) : Prop :=
  match tr with
  | [] => True
  | en :: tr' =>
      match raised en with
      | Some x =>
          tr' = [] /\ ((forall e, x <> PluginDaemonClientSideError e) -> out = Err x)
      | None => stops_at_error tr' out
      end
  end.


(** The two upgrades. *)
Inductive upgrade_source := via_marketplace | via_github.

Definition upgrade_operation (src : upgrade_source) : Ctx -> prog response :=
  match src with
  | via_marketplace => PluginUpgradeFromMarketplaceApi_post
  | via_github => PluginUpgradeFromGithubApi_post
  end.

Definition entry_parse_call (en : entry)
  : option (list Argument * result (list (string * value))) :=
  match en with
  | Entry c r =>
      match c in callE X
            return result X -> option (list Argument * result (list (string * value)))
      with
      | parse_args arguments => fun r => Some (arguments, r)
      | _ => fun _ => None
      end r
  end.

(** The parser calls of a run: what was declared and what came back. *)
Definition parse_calls (tr : list entry) := omap entry_parse_call tr.

(** The dict a parser gives when every declared argument takes its
    default. *)
Definition defaults_of (arguments : list Argument) : list (string * value) :=
  map (fun a => (arg_name a, arg_default a)) arguments.


(** ** More example requests and worlds *)

(** An uploaded part whose header carries no Content-Length. *)
Definition headerless (name : string) : FileStorage :=
  {| filename := name; content_length := 0 |}.

(** 201 bytes: more than either example limit. *)
Definition oversized_content : bytes := repeat Byte.x00 201.

Definition uninstall_request : list (string * value) :=
  [("plugin_installation_id", VStr "inst-1")].

Definition permission_request (install debug : string) : list (string * value) :=
  [("install_permission", VStr install); ("debug_permission", VStr debug)].

Definition bad_mode_preferences : list (string * value) :=
  [("permission", VDict []);
   ("auto_upgrade", VDict [("upgrade_mode", VStr "sometimes")])].

Definition bad_time_preferences : list (string * value) :=
  [("permission", VDict []);
   ("auto_upgrade", VDict [("upgrade_time_of_day", VStr "noon")])].

Definition options_request : list (string * value) :=
  [("plugin_id", VStr "langgenius/openai"); ("provider", VStr "openai");
   ("action", VStr "list_models"); ("parameter", VStr "model");
   ("provider_type", VStr "tool")].

Definition upgrade_request : list (string * value) :=
  [("original_plugin_unique_identifier", VStr "langgenius/openai:0.0.1");
   ("new_plugin_unique_identifier", VStr "langgenius/openai:0.0.2")].

Definition stored_world : World :=
  mkWorld {[ "tenant-1" := TenantPluginPermission.mk
                             TenantPluginPermission.InstallPermission.NOONE
                             TenantPluginPermission.DebugPermission.ADMIN_OWNER_ONLY ]}
          {[ "tenant-1" := old_strategy ]}.

(** * Proofs *)

(** ** Case lemmas for the Python operations *)

Lemma getitem_cases (d : list (string * value)) (k : string) :
  (exists v, dict_lookup k d = Some v /\ getitem d k = Ret v) \/
  (dict_lookup k d = None /\ getitem d k = Raise (KeyError k)).
Proof. unfold getitem. destruct (dict_lookup k d); eauto. Qed.

Lemma request_files_cases (ctx : Ctx) (k : string) :
  (exists f, dict_lookup k (files ctx) = Some f /\ request_files ctx k = Ret f) \/
  (dict_lookup k (files ctx) = None /\ request_files ctx k = Raise (KeyError k)).
Proof. unfold request_files. destruct (dict_lookup k (files ctx)); eauto. Qed.

Lemma check_cases (l : list value) :
  (forallb isinstance_str l = true /\ check_plugin_unique_identifiers l = Ret tt) \/
  (forallb isinstance_str l = false /\
   check_plugin_unique_identifiers l =
     Raise (ValueError (Msg "Invalid plugin unique identifier"))).
Proof.
  induction l as [|y l IH]; cbn; [auto|].
  destruct (isinstance_str y); cbn; auto.
Qed.

Lemma enum_call_cases {E} (of_str : string -> option E) (cls : string) (v : value) :
  (exists m, member_of of_str v = Some m /\ enum_call of_str cls v = Ret m) \/
  (member_of of_str v = None /\ enum_call of_str cls v = Raise (ValueError (NotAValid v cls))).
Proof.
  destruct v; cbn; auto. destruct (of_str s); eauto.
Qed.

Lemma py_get_cases (d : value) (k : string) (default : value) :
  (exists kvs, d = VDict kvs /\ py_get d k default = Ret (get_or kvs k default)) \/
  ((forall kvs, d <> VDict kvs) /\ py_get d k default = Raise (AttributeError "get")).
Proof. destruct d; cbn; eauto; right; split; auto; discriminate. Qed.

Lemma iter_cases (v : value) :
  (exists l, (forall ids, v = VList ids -> l = ids) /\ iter v = Ret l) \/
  ((forall ids, v <> VList ids) /\ iter v = Raise (TypeError "object is not iterable")).
Proof.
  destruct v; cbn; eauto; try (right; split; [discriminate|reflexivity]);
    left; eexists; (split; [|reflexivity]); try discriminate.
  intros ids [= ->]. reflexivity.
Qed.

(** The Python operations stay folded when a run is simplified; the
    proofs open them one at a time, in the order the body reaches them. *)
Arguments getitem : simpl never.
Arguments request_files : simpl never.
Arguments py_get : simpl never.
Arguments iter : simpl never.
Arguments check_plugin_unique_identifiers : simpl never.
Arguments enum_call : simpl never.
Arguments raise_if : simpl never.

Arguments get_or : simpl never.

(** ** Symbolic execution of a run *)

(** The operation a program is waiting on. *)
Ltac stuck_head p :=
  lazymatch p with
  | bind ?q _ => stuck_head q
  | mbind _ ?q => stuck_head q
  | prog_bind _ _ _ ?q => stuck_head q
  | try_except_daemon ?q => stuck_head q
  | _ => constr:(p)
  end.

Ltac open_head H h :=
  let E := fresh "E" in
  lazymatch h with
  | getitem ?d ?k =>
      destruct (getitem_cases d k) as [(? & ? & E) | (? & E)]; rewrite E in H; clear E
  | request_files ?c ?k =>
      destruct (request_files_cases c k) as [(? & ? & E) | (? & E)]; rewrite E in H; clear E
  | check_plugin_unique_identifiers ?l =>
      destruct (check_cases l) as [(? & E) | (? & E)]; rewrite E in H; clear E
  | iter ?v =>
      destruct (iter_cases v) as [(? & ? & E) | (? & E)]; rewrite E in H; clear E
  | py_get ?d ?k ?v =>
      destruct (py_get_cases d k v) as [(? & ? & E) | (? & E)]; rewrite E in H; clear E
  | enum_call ?f ?cls ?v =>
      destruct (enum_call_cases f cls v) as [(? & ? & E) | (? & E)]; rewrite E in H; clear E
  | raise_if ?b ?x => unfold raise_if in H; destruct b eqn:E
  | match ?x with PluginDaemonClientSideError _ => _ | _ => _ end => destruct x
  | (if negb ?b then _ else _) => destruct b
  | match ?o with Some _ => _ | None => _ end => destruct o
  | (let '(_, _) := ?p in _) => destruct p
  end.

Ltac run_step H env :=
  first
  [ lazymatch type of H with
    | context [env ?X ?c ?s] =>
        let E := fresh "Hcall" in
        destruct (env X c s) as [[?|?] ?] eqn:E
    end
  | lazymatch type of H with
    | context [run _ ?p _] => let h := stuck_head p in open_head H h
    end ];
  cbn in H.

Ltac units := repeat match goal with u : unit |- _ => destruct u end.

Ltac unfold_resources H :=
  unfold PluginDebuggingKeyApi_get, PluginListApi_get, PluginListLatestVersionsApi_post,
    PluginListInstallationsFromIdsApi_post, PluginIconApi_get, PluginUploadFromPkgApi_post,
    PluginUploadFromGithubApi_post, PluginUploadFromBundleApi_post,
    PluginInstallFromPkgApi_post, PluginInstallFromGithubApi_post,
    PluginInstallFromMarketplaceApi_post, PluginFetchMarketplacePkgApi_get,
    PluginFetchManifestApi_get, PluginFetchInstallTasksApi_get,
    PluginFetchInstallTaskApi_get, PluginDeleteInstallTaskApi_post,
    PluginDeleteAllInstallTaskItemsApi_post, PluginDeleteInstallTaskItemApi_post,
    PluginUpgradeFromMarketplaceApi_post, PluginUpgradeFromGithubApi_post,
    PluginUninstallApi_post, PluginChangePermissionApi_post, PluginFetchPermissionApi_get,
    PluginFetchDynamicSelectOptionsApi_get, PluginChangePreferencesApi_post,
    PluginFetchPreferencesApi_get, PluginAutoUpgradeExcludePluginApi_post,
    InstallPermission, DebugPermission, StrategySetting, UpgradeMode in H.

(** [execute r]: replace the run [r] by each way it can go, one goal per
    answer of the environment and per branch of the body. *)
Ltac execute_in H env :=
  unfold_resources H; cbn in H; repeat run_step H env.

Ltac execute r :=
  let rr := fresh "r" in
  let H := fresh "Hrun" in
  lazymatch r with
  | run ?env _ _ =>
      remember r as rr eqn:H in *;
      execute_in H env;
      subst rr; units; cbn in *
  end.

Ltac execute_goal :=
  match goal with |- context [run ?e ?p ?s] => execute (run e p s) end.

Lemma operation_surfaces (rt : route) (ctx : Ctx) S (env : Env S) (s : S) :
  surfaces (trace (run env (operation rt ctx) s)) (outcome (run env (operation rt ctx) s)).
Proof.
  destruct rt; cbn [operation resource snd]; execute_goal.
  all: repeat match goal with
       | |- context [match ?x with PluginDaemonClientSideError _ => _ | _ => _ end] =>
           destruct x; cbn
       end.
  all: unfold carries; repeat split; eauto; try discriminate.
Qed.

(** ** Auxiliary facts *)

(** A list with an element that is not a string fails the type check. *)
Lemma check_rejects (l : list value) (x : value) :
  In x l -> isinstance_str x = false -> forallb isinstance_str l = false.
Proof.
  induction l as [|y l IH]; intros Hin Hx; [destruct Hin|].
  cbn. destruct Hin as [->|Hin]; [rewrite Hx; reflexivity|].
  rewrite (IH Hin Hx). apply andb_false_r.
Qed.

(** The entry that reports a daemon error is the last one of the trace. *)
Lemma surfaces_split {A} (tr : list entry) (out : result A) pre en post e :
  surfaces tr out -> tr = (pre ++ en :: post)%list -> reported en = Some e ->
  post = [] /\
  (exists x, out = Err x /\ carries x e) /\
  (entry_daemon en = true -> out = Err (ValueError (Exc (PluginDaemonClientSideError e)))).
Proof.
  revert tr. induction pre as [|a pre IH]; intros tr Hs -> Hrep; cbn in Hs.
  - rewrite Hrep in Hs. exact Hs.
  - destruct (reported a).
    + destruct Hs as [Hnil _]. destruct pre; discriminate.
    + eapply IH; eauto.
Qed.

(** A run without strategy-writing calls leaves alone whatever only such
    calls modify. *)
Lemma run_frame {S A T} (env : Env S) (stored : S -> T) :
  (forall X (c : callE X) s0, writes_strategy c = false -> stored (snd (env X c s0)) = stored s0) ->
  forall (p : prog A) (s : S),
    forallb (fun en => negb (entry_writes_strategy en)) (trace (run env p s)) = true ->
    stored (final (run env p s)) = stored s.
Proof.
  intros Hframe p. induction p as [a|x|X c k IH]; intros s; cbn; try reflexivity.
  specialize (Hframe X c s). destruct (env X c s) as [r s1]; cbn in Hframe.
  specialize (IH r s1). destruct (run env (k r) s1) as [out s2 tr]; cbn in *.
  intros [Hc Hrest]%andb_true_iff. apply negb_true_iff in Hc.
  rewrite (IH Hrest). apply Hframe, Hc.
Qed.

(** The reference environment writes a strategy only through the two
    strategy-writing calls. *)
Lemma ref_env_frame (sc : Scenario) X (c : callE X) (w : World) :
  writes_strategy c = false -> strategies (snd (ref_env sc X c w)) = strategies w.
Proof.
  destruct c; cbn; try discriminate; try reflexivity.
  unfold ref_change_permission. destruct (permission_store_ok sc); reflexivity.
Qed.

(** * The claims *)

(** C1 (as amended).  A successful plugin listing returns an object with
    both the page of plugins and the total the service reported, for the
    page and page_size the parser gave.  A successful install-task listing
    returns an object whose only field is the page of tasks the service
    returned: it has no total field. *)
Theorem C1_list_pages (e : list_endpoint) (ctx : Ctx) S (env : Env S) (s : S)
    (resp : response) :
  let r := run env (list_operation e ctx) s in
  let tenant_id := current_tenant_id (current_user ctx) in
  outcome r = Ok resp ->
  exists args page page_size,
    parsed (trace r) = Some args /\
    dict_lookup "page" args = Some page /\
    dict_lookup "page_size" args = Some page_size /\
    match e with
    | plugins_page => exists plugins_with_total,
        last (trace r) =
          Some (Entry (PluginService_list_with_total tenant_id page page_size)
                      (Ok plugins_with_total)) /\
        resp = jsonable_encoder (ODict [
          ("plugins", OVal (PluginListResponse.list plugins_with_total));
          ("total", OVal (PluginListResponse.total plugins_with_total))])
    | tasks_page => exists tasks,
        last (trace r) =
          Some (Entry (PluginService_fetch_install_tasks tenant_id page page_size)
                      (Ok tasks)) /\
        resp = jsonable_encoder (ODict [("tasks", OVal tasks)]) /\
        has_field "total" resp = false
    end.
Proof.
  intros r tenant_id; subst r tenant_id.
  destruct e; cbn [list_operation]; execute_goal; intros [= <-]; eauto 10.
Qed.

(** C1 as stated fails for the install-task listing: on this request it
    succeeds with an object that has the tasks and no total. *)
Lemma C1_counterexample :
  let r := run (ref_env (quiet [("page", VInt 1); ("page_size", VInt 10)]))
               (list_operation tasks_page (example_ctx member [])) empty_world in
  exists resp, outcome r = Ok resp /\ has_field "tasks" resp = true
               /\ has_field "total" resp = false.
Proof. eexists. vm_compute. repeat split; reflexivity. Qed.

(** C1 at a concrete listing request. *)
Lemma C1_list_pages_witness :
  let r := run (ref_env (quiet [("page", VInt 2)]))
               (list_operation plugins_page (example_ctx member [])) empty_world in
  let resp := jsonable_encoder (ODict [
    ("plugins", OVal (VList [VStr "plugin"])); ("total", OVal (VInt 1))]) in
  outcome r = Ok resp /\
  exists args page page_size,
    parsed (trace r) = Some args /\
    dict_lookup "page" args = Some page /\
    dict_lookup "page_size" args = Some page_size /\
    exists plugins_with_total,
      last (trace r) =
        Some (Entry (PluginService_list_with_total "tenant-1" page page_size)
                    (Ok plugins_with_total)) /\
      resp = jsonable_encoder (ODict [
        ("plugins", OVal (PluginListResponse.list plugins_with_total));
        ("total", OVal (PluginListResponse.total plugins_with_total))]).
Proof.
  split; [reflexivity|].
  apply (C1_list_pages plugins_page (example_ctx member []) World
           (ref_env (quiet [("page", VInt 2)])) empty_world).
  reflexivity.
Defined.

(** C2.  The size check looks at [file.content_length], the length the
    part header declares, and nothing ties that to the content.  With no
    length in the header ([content_length] 0) and 201 bytes of content, over
    both limits, the package and the bundle upload pass the check, read the
    file and hand all 201 bytes to the daemon, and the request succeeds. *)
Theorem C2_oversized_upload_reaches_daemon (k : upload_kind) :
  let file := headerless "plugin.difypkg" in
  let ctx := example_ctx owner [("pkg", file); ("bundle", file)] in
  let r := run (ref_env (mkScenario [] oversized_content None true))
               (upload_operation k ctx) empty_world in
  Z.of_nat (length oversized_content) > upload_limit k (dify_config ctx) /\
  trace r = (install_decorators_passed ++
             [Entry (file_read file) (Ok oversized_content);
              Entry (upload_call k "tenant-1" oversized_content) (Ok (VStr "ok"))])%list /\
  outcome r = Ok (jsonable_encoder (OVal (VStr "ok"))).
Proof.
  destruct k; vm_compute; repeat split; reflexivity.
Qed.

(** X20.  What the size check of the two uploads does enforce: an upload
    whose declared length ([file.content_length]) exceeds the configured
    maximum ends in an error with no read of the file and no daemon call in
    its trace; when the decorators let the request through the error is the
    ValueError of the size check.  With a declared length at or below the
    limit, when nothing before the daemon fails, the file is read and the
    bytes read, however many, are handed to the daemon, whose answer decides
    the outcome. *)
Theorem declared_length_limit (k : upload_kind) (ctx : Ctx) S (env : Env S) (s : S)
    (file : FileStorage) :
  let r := run env (upload_operation k ctx) s in
  let tenant_id := current_tenant_id (current_user ctx) in
  dict_lookup (upload_field k) (files ctx) = Some file ->
  (content_length file > upload_limit k (dify_config ctx) ->
     (exists x, outcome r = Err x) /\
     forallb (fun en => negb (entry_file_read en) && negb (entry_daemon en)) (trace r) = true /\
     (forallb entry_ok (trace r) = true ->
      outcome r = Err (ValueError (Msg "File size exceeds the maximum allowed size")))) /\
  (content_length file <= upload_limit k (dify_config ctx) ->
     forallb (fun en => entry_daemon en || entry_ok en) (trace r) = true ->
     exists content ans,
       trace r = (install_decorators_passed ++
                  [Entry (file_read file) (Ok content);
                   Entry (upload_call k tenant_id content) ans])%list /\
       outcome r = through_try ans (fun response => jsonable_encoder (OVal response))).
Proof.
  intros r tenant_id Hfile; subst r tenant_id.
  destruct k; cbn [upload_operation upload_field upload_limit upload_call] in *;
    execute_goal; simplify_eq.
  all: split; intros Hsize;
    repeat match goal with
    | E : (_ >? _) = _ |- _ =>
        first [apply Z.gtb_lt in E | apply Z.gtb_ltb in E; apply Z.ltb_ge in E]
    end; try lia.
  all: repeat split; intros; try discriminate; eauto.
Qed.

(** The same at a package declared one byte over its limit and a bundle
    declared at its limit. *)
Lemma declared_length_limit_witness :
  let ctx := example_ctx owner [("pkg", big_pkg); ("bundle", small_bundle)] in
  let over := run (ref_env (quiet [])) (upload_operation pkg ctx) empty_world in
  let within := run (ref_env (quiet [])) (upload_operation bundle ctx) empty_world in
  (dict_lookup (upload_field pkg) (files ctx) = Some big_pkg /\
   content_length big_pkg > upload_limit pkg (dify_config ctx) /\
   forallb entry_ok (trace over) = true /\
   outcome over = Err (ValueError (Msg "File size exceeds the maximum allowed size"))) /\
  (dict_lookup (upload_field bundle) (files ctx) = Some small_bundle /\
   content_length small_bundle <= upload_limit bundle (dify_config ctx) /\
   forallb (fun en => entry_daemon en || entry_ok en) (trace within) = true /\
   exists content ans,
     trace within = (install_decorators_passed ++
        [Entry (file_read small_bundle) (Ok content);
         Entry (upload_call bundle "tenant-1" content) ans])%list /\
     outcome within = through_try ans (fun response => jsonable_encoder (OVal response))).
Proof.
  split.
  - split; [reflexivity|]. split; [reflexivity|]. split; [reflexivity|].
    apply (declared_length_limit pkg
             (example_ctx owner [("pkg", big_pkg); ("bundle", small_bundle)])
             World (ref_env (quiet [])) empty_world big_pkg eq_refl);
      reflexivity.
  - split; [reflexivity|]. split; [discriminate|]. split; [reflexivity|].
    apply (declared_length_limit bundle
             (example_ctx owner [("pkg", big_pkg); ("bundle", small_bundle)])
             World (ref_env (quiet [])) empty_world small_bundle eq_refl);
      [discriminate | reflexivity].
Defined.

(** C3.  A batch install (from local packages or from the marketplace)
    whose list of identifiers has an element that is not a string fails
    with ValueError right after parsing: the trace holds the decorators and
    the parser only, so no daemon call is made. *)
Theorem C3_batch_install_rejects (src : install_source) (ctx : Ctx) S (env : Env S) (s : S)
    (args : list (string * value)) (ids : list value) (x : value) :
  let r := run env (install_operation src ctx) s in
  parsed (trace r) = Some args ->
  dict_lookup "plugin_unique_identifiers" args = Some (VList ids) ->
  In x ids -> isinstance_str x = false ->
  outcome r = Err (ValueError (Msg "Invalid plugin unique identifier")) /\
  forallb (fun en => negb (entry_daemon en)) (trace r) = true /\
  trace r = (install_decorators_passed ++
             [Entry (parse_args [add_argument "plugin_unique_identifiers"
                                   py_list true loc_json VNone]) (Ok args)])%list.
Proof.
  intros r; subst r.
  destruct src; cbn [install_operation]; execute_goal;
    intros Hp Hl Hin Hx; simplify_eq; auto.
  all: try match goal with
       | Hn : forall ids, VList _ <> VList ids |- _ => destruct (Hn _ eq_refl)
       end.
  all: match goal with
       | Hi : forall ids, VList _ = VList ids -> _ |- _ => specialize (Hi _ eq_refl); subst
       end.
  all: match goal with
       | Hc : forallb isinstance_str _ = true |- _ =>
           rewrite (check_rejects _ _ Hin Hx) in Hc; discriminate
       end.
Qed.

(** C3 at a marketplace install with an integer among the identifiers. *)
Lemma C3_batch_install_rejects_witness :
  let args := [("plugin_unique_identifiers", VList mixed_identifiers)] in
  let r := run (ref_env (quiet args)) (install_operation marketplace (example_ctx owner []))
               empty_world in
  parsed (trace r) = Some args /\
  dict_lookup "plugin_unique_identifiers" args = Some (VList mixed_identifiers) /\
  In (VInt 7) mixed_identifiers /\
  isinstance_str (VInt 7) = false /\
  outcome r = Err (ValueError (Msg "Invalid plugin unique identifier")) /\
  forallb (fun en => negb (entry_daemon en)) (trace r) = true /\
  trace r = (install_decorators_passed ++
             [Entry (parse_args [add_argument "plugin_unique_identifiers"
                                   py_list true loc_json VNone]) (Ok args)])%list.
Proof.
  split; [reflexivity|]. split; [reflexivity|].
  split; [right; left; reflexivity|]. split; [reflexivity|].
  apply (C3_batch_install_rejects marketplace (example_ctx owner []) World
           (ref_env (quiet [("plugin_unique_identifiers", VList mixed_identifiers)]))
           empty_world
           [("plugin_unique_identifiers", VList mixed_identifiers)]
           mixed_identifiers (VInt 7));
    [reflexivity | reflexivity | right; left; reflexivity | reflexivity].
Defined.

(** C4.  Fetching the permission (alone or within the preferences) for a
    tenant with no stored record gives exactly the result it gives when the
    store holds an explicit everyone/everyone record, all else being
    equal. *)
Theorem C4_absent_permission_is_everyone (k : permission_fetch_kind) (ctx : Ctx)
    S1 (env1 : Env S1) (s1 : S1) S2 (env2 : Env S2) (s2 : S2) (t : string) :
  let r1 := run env1 (permission_fetch_operation k ctx) s1 in
  let r2 := run env2 (permission_fetch_operation k ctx) s2 in
  permission_reads (trace r1) = [(t, Ok None)] ->
  permission_reads (trace r2) =
    [(t, Ok (Some (TenantPluginPermission.mk
                     TenantPluginPermission.InstallPermission.EVERYONE
                     TenantPluginPermission.DebugPermission.EVERYONE)))] ->
  strategy_reads (trace r1) = strategy_reads (trace r2) ->
  outcome r1 = outcome r2.
Proof.
  cbv zeta.
  remember (run env1 _ s1) as r1 eqn:H1.
  remember (run env2 _ s2) as r2 eqn:H2.
  destruct k; cbn [permission_fetch_operation] in *;
    execute_in H1 env1; execute_in H2 env2; subst r1 r2; units; cbn;
    intros; simplify_eq; reflexivity.
Qed.

(** C4 at an empty store and a store with the explicit record. *)
Lemma C4_absent_permission_is_everyone_witness :
  let ctx := example_ctx member [] in
  let r1 := run (ref_env (quiet [])) (permission_fetch_operation fetch_preferences ctx)
                empty_world in
  let r2 := run (ref_env (quiet [])) (permission_fetch_operation fetch_preferences ctx)
                explicit_world in
  permission_reads (trace r1) = [("tenant-1", Ok None)] /\
  permission_reads (trace r2) = [("tenant-1", Ok (Some everyone_everyone))] /\
  strategy_reads (trace r1) = strategy_reads (trace r2) /\
  outcome r1 = outcome r2.
Proof.
  split; [vm_compute; reflexivity|]. split; [vm_compute; reflexivity|].
  split; [vm_compute; reflexivity|].
  apply (C4_absent_permission_is_everyone fetch_preferences (example_ctx member [])
           World (ref_env (quiet [])) empty_world
           World (ref_env (quiet [])) explicit_world "tenant-1");
    vm_compute; reflexivity.
Defined.



(** C6.  In every operation of the module, a call that comes back with a
    daemon client-side error is the last call of the run (nothing is retried)
    and the caller gets an error that carries that very daemon error; for a
    call to the daemon it is a ValueError whose argument is the daemon's
    exception, code and message untouched. *)
Theorem C6_daemon_errors_pass_through (rt : route) (ctx : Ctx) S (env : Env S) (s : S)
    (pre post : list entry) (en : entry) (e : DaemonError) :
  let r := run env (operation rt ctx) s in
  trace r = (pre ++ en :: post)%list ->
  reported en = Some e ->
  post = [] /\
  (exists x, outcome r = Err x /\ carries x e) /\
  (entry_daemon en = true ->
   outcome r = Err (ValueError (Exc (PluginDaemonClientSideError e)))).
Proof.
  intros r Htr Hrep. eapply surfaces_split; eauto. apply operation_surfaces.
Qed.

(** C6 at an uninstall the daemon refuses. *)
Lemma C6_daemon_errors_pass_through_witness :
  let args := [("plugin_installation_id", VStr "inst-1")] in
  let r := run (ref_env (refusing args)) (operation uninstall (example_ctx owner []))
               empty_world in
  let pre := (install_decorators_passed ++
    [Entry (parse_args [add_argument "plugin_installation_id" py_str true loc_json VNone])
           (Ok args)])%list in
  let en := Entry (PluginService_uninstall "tenant-1" (VStr "inst-1"))
                  (Err (PluginDaemonClientSideError not_found)) in
  trace r = (pre ++ en :: [])%list /\
  reported en = Some not_found /\
  entry_daemon en = true /\
  outcome r = Err (ValueError (Exc (PluginDaemonClientSideError not_found))).
Proof.
  split; [reflexivity|]. split; [reflexivity|]. split; [reflexivity|].
  apply (C6_daemon_errors_pass_through uninstall (example_ctx owner []) World
           (ref_env (refusing [("plugin_installation_id", VStr "inst-1")])) empty_world
           (install_decorators_passed ++
            [Entry (parse_args [add_argument "plugin_installation_id"
                                  py_str true loc_json VNone])
                   (Ok [("plugin_installation_id", VStr "inst-1")])])%list
           []
           (Entry (PluginService_uninstall "tenant-1" (VStr "inst-1"))
                  (Err (PluginDaemonClientSideError not_found)))
           not_found);
    reflexivity.
Defined.

(** C7.  A successful icon request returns, through [send_file], the
    bytes and the mimetype the service gave for the tenant_id and filename
    of the request, with max_age set to TOOL_ICON_CACHE_MAX_AGE. *)
Theorem C7_icon (ctx : Ctx) S (env : Env S) (s : S) (resp : response) :
  let r := run env (PluginIconApi_get ctx) s in
  outcome r = Ok resp ->
  exists args tenant_id filename icon_bytes mimetype,
    parsed (trace r) = Some args /\
    dict_lookup "tenant_id" args = Some tenant_id /\
    dict_lookup "filename" args = Some filename /\
    last (trace r) = Some (Entry (PluginService_get_asset tenant_id filename)
                                 (Ok (icon_bytes, mimetype))) /\
    resp = send_file icon_bytes mimetype (TOOL_ICON_CACHE_MAX_AGE (dify_config ctx)).
Proof.
  intros r; subst r. execute_goal; intros [= <-]; eauto 10.
Qed.

(** C7 at a concrete icon request. *)
Lemma C7_icon_witness :
  let sent := [("tenant_id", VStr "tenant-1"); ("filename", VStr "icon.svg")] in
  let ctx := example_ctx member [] in
  let r := run (ref_env (quiet sent)) (PluginIconApi_get ctx) empty_world in
  let resp := send_file [Byte.x50; Byte.x4b] "image/png" 604800 in
  outcome r = Ok resp /\
  exists args tenant_id filename icon_bytes mimetype,
    parsed (trace r) = Some args /\
    dict_lookup "tenant_id" args = Some tenant_id /\
    dict_lookup "filename" args = Some filename /\
    last (trace r) = Some (Entry (PluginService_get_asset tenant_id filename)
                                 (Ok (icon_bytes, mimetype))) /\
    resp = send_file icon_bytes mimetype (TOOL_ICON_CACHE_MAX_AGE (dify_config ctx)).
Proof.
  split; [reflexivity|].
  apply (C7_icon (example_ctx member []) World
           (ref_env (quiet [("tenant_id", VStr "tenant-1"); ("filename", VStr "icon.svg")]))
           empty_world).
  reflexivity.
Defined.

(** C8.  In the preferences change, when setting the permission fails the
    method returns success false (with its message), the strategy change is
    never called, and whatever the environment stores that only
    strategy-writing calls modify is as it was before the request.  A
    strategy change in a trace always comes right after a permission change
    that returned true. *)
Theorem C8_permission_failure_skips_strategy (ctx : Ctx) S (env : Env S) (s : S) :
  let r := run env (PluginChangePreferencesApi_post ctx) s in
  (forall w, permission_writes (trace r) = [w] -> pw_result w = Ok false ->
     outcome r = Ok (jsonable_encoder (ODict [
       ("success", OVal (VBool false));
       ("message", OVal (VStr "Failed to set permission"))])) /\
     strategy_writes (trace r) = [] /\
     forallb (fun en => negb (entry_writes_strategy en)) (trace r) = true /\
     (forall T (stored : S -> T),
        (forall X (c : callE X) s0,
           writes_strategy c = false -> stored (snd (env X c s0)) = stored s0) ->
        stored (final r) = stored s)) /\
  (strategy_writes (trace r) <> [] ->
     exists pre t ip dp ss tod um ex inc ans,
       trace r = (pre ++
         [Entry (PluginPermissionService_change_permission t ip dp) (Ok true);
          Entry (PluginAutoUpgradeService_change_strategy t ss tod um ex inc) ans])%list /\
       forallb (fun en => negb (entry_writes_strategy en)) pre = true).
Proof.
  intros r.
  assert (Hquiet : forall w, permission_writes (trace r) = [w] -> pw_result w = Ok false ->
     outcome r = Ok (jsonable_encoder (ODict [
       ("success", OVal (VBool false));
       ("message", OVal (VStr "Failed to set permission"))])) /\
     strategy_writes (trace r) = [] /\
     forallb (fun en => negb (entry_writes_strategy en)) (trace r) = true).
  { subst r. execute_goal; intros w Hw Hres; simplify_eq; cbn in Hres;
      try discriminate; auto. }
  split.
  - intros w Hw Hres. destruct (Hquiet w Hw Hres) as (Hout & Hnone & Hno).
    repeat split; auto. intros T stored Hframe. apply run_frame; auto.
  - clear Hquiet. subst r. execute_goal; intros Hne;
      try (exfalso; apply Hne; reflexivity).
    all: eexists [_; _; _; _]; do 9 eexists; split; reflexivity.
Qed.

(** C8 at a request whose permission write fails and one where it goes through. *)
Lemma C8_permission_failure_skips_strategy_witness :
  let ctx := example_ctx owner [] in
  let failed := run (ref_env (store_down empty_preferences))
                    (PluginChangePreferencesApi_post ctx) configured_world in
  let stored := run (ref_env (quiet empty_preferences))
                    (PluginChangePreferencesApi_post ctx) configured_world in
  let w := mkPermissionWrite "tenant-1" TenantPluginPermission.InstallPermission.EVERYONE
             TenantPluginPermission.DebugPermission.EVERYONE (Ok false) in
  (permission_writes (trace failed) = [w] /\
   pw_result w = Ok false /\
   outcome failed = Ok (jsonable_encoder (ODict [
     ("success", OVal (VBool false));
     ("message", OVal (VStr "Failed to set permission"))])) /\
   strategy_writes (trace failed) = [] /\
   strategies (final failed) = strategies configured_world) /\
  (strategy_writes (trace stored) <> [] /\
   exists pre t ip dp ss tod um ex inc ans,
     trace stored = (pre ++
       [Entry (PluginPermissionService_change_permission t ip dp) (Ok true);
        Entry (PluginAutoUpgradeService_change_strategy t ss tod um ex inc) ans])%list /\
     forallb (fun en => negb (entry_writes_strategy en)) pre = true).
Proof.
  split.
  - split; [reflexivity|]. split; [reflexivity|].
    destruct (proj1 (C8_permission_failure_skips_strategy (example_ctx owner []) World
                (ref_env (store_down empty_preferences)) configured_world)
                (mkPermissionWrite "tenant-1"
                   TenantPluginPermission.InstallPermission.EVERYONE
                   TenantPluginPermission.DebugPermission.EVERYONE (Ok false))
                eq_refl eq_refl) as (Hout & Hnone & _ & Hframe).
    split; [exact Hout|]. split; [exact Hnone|].
    apply (Hframe _ strategies). intros X c s0. apply ref_env_frame.
  - split; [discriminate|].
    apply (proj2 (C8_permission_failure_skips_strategy (example_ctx owner []) World
                    (ref_env (quiet empty_preferences)) configured_world)).
    discriminate.
Defined.



(** C10.  For a caller who is not admin or owner, changing the permission
    or the preferences never succeeds and never reaches a service; once the
    decorators let the request through it is rejected with Forbidden.  The
    exclude-plugin operation does not look at the role: for any member the
    decorators and the parser let through, it calls the service and returns
    what the service said. *)
Theorem C10_role_checks (pc : policy_change) (ctx : Ctx) S (env : Env S) (s : S)
    (args : list (string * value)) (plugin_id : value) :
  let r := run env (policy_operation pc ctx) s in
  let rx := run env (PluginAutoUpgradeExcludePluginApi_post ctx) s in
  let tenant_id := current_tenant_id (current_user ctx) in
  (is_admin_or_owner (current_user ctx) = false ->
     (exists x, outcome r = Err x) /\
     permission_writes (trace r) = [] /\
     strategy_writes (trace r) = [] /\
     (forallb entry_ok (trace r) = true ->
      outcome r = Err Forbidden /\ trace r = member_decorators_passed)) /\
  (parsed (trace rx) = Some args ->
   dict_lookup "plugin_id" args = Some plugin_id ->
   exists ans,
     trace rx = (member_decorators_passed ++
       [Entry (parse_args [add_argument "plugin_id" py_str true loc_json VNone]) (Ok args);
        Entry (PluginAutoUpgradeService_exclude_plugin tenant_id plugin_id) ans])%list /\
     outcome rx =
       match ans with
       | Ok success => Ok (jsonable_encoder (ODict [("success", OVal success)]))
       | Err x => Err x
       end) /\
  (forall b, PluginAutoUpgradeExcludePluginApi_post (with_role b ctx) =
             PluginAutoUpgradeExcludePluginApi_post ctx).
Proof.
  intros r rx tenant_id. split; [|split].
  - clear rx. subst r. intros Hrole.
    destruct pc; cbn [policy_operation]; execute_goal;
      repeat match goal with
      | E : negb (is_admin_or_owner _) = _ |- _ => rewrite Hrole in E; cbn in E
      end; simplify_eq;
      repeat split; intros; try discriminate; eauto.
  - clear r. subst rx tenant_id.
    execute_goal; intros; simplify_eq; eauto.
  - reflexivity.
Qed.

(** C10 for an ordinary member. *)
Lemma C10_role_checks_witness :
  let ctx := example_ctx member [] in
  let sent := [("plugin_id", VStr "langgenius/openai");
               ("install_permission", VStr "everyone");
               ("debug_permission", VStr "everyone")] in
  let r := run (ref_env (quiet sent)) (policy_operation change_permission ctx)
               empty_world in
  let rx := run (ref_env (quiet sent)) (PluginAutoUpgradeExcludePluginApi_post ctx)
                empty_world in
  (is_admin_or_owner (current_user ctx) = false /\
   forallb entry_ok (trace r) = true /\
   outcome r = Err Forbidden /\ trace r = member_decorators_passed) /\
  (parsed (trace rx) = Some [("plugin_id", VStr "langgenius/openai")] /\
   dict_lookup "plugin_id" [("plugin_id", VStr "langgenius/openai")]
     = Some (VStr "langgenius/openai") /\
   exists ans,
     trace rx = (member_decorators_passed ++
       [Entry (parse_args [add_argument "plugin_id" py_str true loc_json VNone])
              (Ok [("plugin_id", VStr "langgenius/openai")]);
        Entry (PluginAutoUpgradeService_exclude_plugin "tenant-1"
                 (VStr "langgenius/openai")) ans])%list /\
     outcome rx =
       match ans with
       | Ok success => Ok (jsonable_encoder (ODict [("success", OVal success)]))
       | Err x => Err x
       end).
Proof.
  pose proof (C10_role_checks change_permission (example_ctx member []) World
                (ref_env (quiet [("plugin_id", VStr "langgenius/openai");
                                 ("install_permission", VStr "everyone");
                                 ("debug_permission", VStr "everyone")]))
                empty_world [("plugin_id", VStr "langgenius/openai")]
                (VStr "langgenius/openai")) as (Hdenied & Haccepted & _).
  split.
  - split; [reflexivity|]. split; [reflexivity|].
    apply Hdenied; reflexivity.
  - split; [reflexivity|]. split; [reflexivity|].
    apply Haccepted; reflexivity.
Defined.

(** * Further properties of the resources *)

(** Symbolic execution of every route at once. *)
Ltac all_routes rt := destruct rt; cbn [operation resource snd]; execute_goal.

Ltac no_dict :=
  repeat match goal with
  | Hn : forall kvs, VDict _ <> VDict kvs |- _ => destruct (Hn _ eq_refl)
  | Hn : forall ids, VList _ <> VList ids |- _ => destruct (Hn _ eq_refl)
  end.

(** X1.  No route gets past its decorators unless each of them let the
    request through: the body of every route but the icon one runs only
    after setup_required, login_required and account_initialization_required
    returned, in that order; the icon route asks for setup_required only. *)
Theorem login_gate (rt : route) (ctx : Ctx) S (env : Env S) (s : S) :
  let r := run env (operation rt ctx) s in
  reaches_body (trace r) = true ->
  exists rest,
    trace r = ((if requires_login rt then member_decorators_passed
                else [Entry setup_required (Ok tt)]) ++ rest)%list.
Proof.
  intros r; subst r. all_routes rt; intros; try discriminate; eexists; reflexivity.
Qed.

(** The same at a concrete request. *)
Lemma login_gate_witness :
  let r := run (ref_env (quiet uninstall_request)) (operation uninstall (example_ctx owner []))
               empty_world in
  reaches_body (trace r) = true /\
  exists rest, trace r = (member_decorators_passed ++ rest)%list.
Proof.
  split; [reflexivity|].
  apply (login_gate uninstall (example_ctx owner []) World
           (ref_env (quiet uninstall_request)) empty_world).
  reflexivity.
Defined.

(** X2.  The routes that upload, install, upgrade, uninstall, read a
    manifest or handle install tasks reach their body only after
    plugin_permission_required(install_required=True) let the request
    through; the debugging-key route only after
    plugin_permission_required(debug_required=True); every other route makes
    no plugin-permission check at all. *)
Theorem permission_gate (rt : route) (ctx : Ctx) S (env : Env S) (s : S) :
  let r := run env (operation rt ctx) s in
  reaches_body (trace r) = true ->
  if requires_install_permission rt then
    exists rest, trace r = (install_decorators_passed ++ rest)%list
  else
    match rt with
    | debugging_key =>
        exists rest,
          trace r = (member_decorators_passed ++
                     Entry (plugin_permission_required false true) (Ok tt) :: rest)%list
    | _ => forallb (fun en => negb (entry_permission_check en)) (trace r) = true
    end.
Proof.
  intros r; subst r.
  all_routes rt; intros; try discriminate; try reflexivity; eexists; reflexivity.
Qed.

(** The same at a concrete request. *)
Lemma permission_gate_witness :
  let r := run (ref_env (quiet uninstall_request)) (operation uninstall (example_ctx owner []))
               empty_world in
  reaches_body (trace r) = true /\
  exists rest, trace r = (install_decorators_passed ++ rest)%list.
Proof.
  split; [reflexivity|].
  apply (permission_gate uninstall (example_ctx owner []) World
           (ref_env (quiet uninstall_request)) empty_world).
  reflexivity.
Defined.

(** X3.  A request makes at most one daemon call, whatever the
    collaborators answer, and the five policy routes make none. *)
Theorem one_daemon_call (rt : route) (ctx : Ctx) S (env : Env S) (s : S) :
  (daemon_calls (trace (run env (operation rt ctx) s)) <= 1)%nat /\
  (is_policy_route rt = true -> daemon_calls (trace (run env (operation rt ctx) s)) = 0%nat).
Proof.
  all_routes rt; unfold daemon_calls; cbn; split; intros; try discriminate;
    try reflexivity; lia.
Qed.

(** The same at a concrete request. *)
Lemma one_daemon_call_witness :
  let r := run (ref_env (quiet [])) (operation permission_fetch (example_ctx member []))
               empty_world in
  is_policy_route permission_fetch = true /\ daemon_calls (trace r) = 0%nat.
Proof.
  split; [reflexivity|].
  apply (one_daemon_call permission_fetch (example_ctx member []) World
           (ref_env (quiet [])) empty_world).
  reflexivity.
Defined.

(** X4.  The tenant permission is written only by the permission-change
    and preferences-change routes, and the auto-upgrade strategy only by the
    preferences-change and exclude-plugin routes. *)
Theorem policy_writers (rt : route) (ctx : Ctx) S (env : Env S) (s : S) :
  let r := run env (operation rt ctx) s in
  (permission_writes (trace r) <> [] -> rt = permission_change \/ rt = preferences_change) /\
  (existsb entry_writes_strategy (trace r) = true ->
   rt = preferences_change \/ rt = preferences_autoupgrade_exclude).
Proof.
  intros r; subst r.
  all_routes rt; split; intros Hw; auto; try discriminate; exfalso; apply Hw; reflexivity.
Qed.

(** The same at a concrete request. *)
Lemma policy_writers_witness :
  let r := run (ref_env (quiet (permission_request "noone" "everyone")))
               (operation permission_change (example_ctx owner [])) empty_world in
  permission_writes (trace r) <> [] /\
  (permission_change = permission_change \/ permission_change = preferences_change).
Proof.
  split; [discriminate|].
  apply (policy_writers permission_change (example_ctx owner []) World
           (ref_env (quiet (permission_request "noone" "everyone"))) empty_world).
  discriminate.
Defined.

(** X5.  Every service call that takes a tenant id of its own is made for
    the tenant of the current user, on every route and whatever the request
    holds. *)
Theorem tenant_isolation (rt : route) (ctx : Ctx) S (env : Env S) (s : S) :
  Forall (eq (current_tenant_id (current_user ctx)))
         (omap entry_tenant (trace (run env (operation rt ctx) s))).
Proof.
  all_routes rt; repeat constructor.
Qed.

(** X6.  No route swallows an exception: when a request succeeds, every
    call it made returned normally. *)
Theorem success_means_no_error (rt : route) (ctx : Ctx) S (env : Env S) (s : S)
    (resp : response) :
  let r := run env (operation rt ctx) s in
  outcome r = Ok resp -> forallb entry_ok (trace r) = true.
Proof.
  intros r; subst r. all_routes rt; intros; try discriminate; reflexivity.
Qed.

(** The same at a concrete request. *)
Lemma success_means_no_error_witness :
  let r := run (ref_env (quiet uninstall_request)) (operation uninstall (example_ctx owner []))
               empty_world in
  outcome r = Ok (plain (ODict [("success", OVal (VStr "ok"))])) /\
  forallb entry_ok (trace r) = true.
Proof.
  split; [reflexivity|].
  apply (success_means_no_error uninstall (example_ctx owner []) World
           (ref_env (quiet uninstall_request)) empty_world
           (plain (ODict [("success", OVal (VStr "ok"))]))).
  reflexivity.
Defined.

(** X7.  A route outside the policy routes never succeeds without the
    daemon: a successful request made exactly one daemon call. *)
Theorem daemon_route_success (rt : route) (ctx : Ctx) S (env : Env S) (s : S)
    (resp : response) :
  let r := run env (operation rt ctx) s in
  outcome r = Ok resp ->
  is_policy_route rt = false ->
  daemon_calls (trace r) = 1%nat.
Proof.
  intros r; subst r. all_routes rt; intros; try discriminate; reflexivity.
Qed.

(** The same at a concrete request. *)
Lemma daemon_route_success_witness :
  let r := run (ref_env (quiet uninstall_request)) (operation uninstall (example_ctx owner []))
               empty_world in
  outcome r = Ok (plain (ODict [("success", OVal (VStr "ok"))])) /\
  is_policy_route uninstall = false /\
  daemon_calls (trace r) = 1%nat.
Proof.
  split; [reflexivity|]. split; [reflexivity|].
  apply (daemon_route_success uninstall (example_ctx owner []) World
           (ref_env (quiet uninstall_request)) empty_world
           (plain (ODict [("success", OVal (VStr "ok"))])));
    reflexivity.
Defined.

(** Every route stops at the first call that raises. *)
Lemma operation_stops (rt : route) (ctx : Ctx) S (env : Env S) (s : S) :
  stops_at_error (trace (run env (operation rt ctx) s)) (outcome (run env (operation rt ctx) s)).
Proof.
  all_routes rt; repeat split; intros Hx; try reflexivity;
    try (exfalso; eapply Hx; reflexivity).
Qed.

(** The entry that raised is the last one of the trace. *)
Lemma stops_split {A} (tr : list entry) (out : result A) pre en post x :
  stops_at_error tr out -> tr = (pre ++ en :: post)%list -> raised en = Some x ->
  post = [] /\ ((forall e, x <> PluginDaemonClientSideError e) -> out = Err x).
Proof.
  revert tr. induction pre as [|a pre IH]; intros tr Hs -> Hr; cbn in Hs.
  - rewrite Hr in Hs. exact Hs.
  - destruct (raised a).
    + destruct Hs as [Hnil _]. destruct pre; discriminate.
    + eapply IH; eauto.
Qed.

(** X8.  A call that raises ends the request on every route, and an
    exception that is not a daemon client-side error reaches the caller as
    it was raised, unwrapped. *)
Theorem other_errors_propagate (rt : route) (ctx : Ctx) S (env : Env S) (s : S)
    (pre post : list entry) (en : entry) (x : exn) :
  let r := run env (operation rt ctx) s in
  trace r = (pre ++ en :: post)%list ->
  raised en = Some x ->
  post = [] /\ ((forall e, x <> PluginDaemonClientSideError e) -> outcome r = Err x).
Proof.
  intros r Htr Hr. eapply stops_split; eauto. apply operation_stops.
Qed.

(** The same at a concrete request. *)
Lemma other_errors_propagate_witness :
  let r := run (ref_env (quiet [])) (operation uninstall (example_ctx owner []))
               empty_world in
  let en := Entry (parse_args [add_argument "plugin_installation_id"
                                 py_str true loc_json VNone])
                  (Err (Exception "BadRequest" "plugin_installation_id")) in
  trace r = (install_decorators_passed ++ en :: [])%list /\
  raised en = Some (Exception "BadRequest" "plugin_installation_id") /\
  (forall e, Exception "BadRequest" "plugin_installation_id"
             <> PluginDaemonClientSideError e) /\
  outcome r = Err (Exception "BadRequest" "plugin_installation_id").
Proof.
  split; [reflexivity|]. split; [reflexivity|]. split; [discriminate|].
  apply (other_errors_propagate uninstall (example_ctx owner []) World
           (ref_env (quiet [])) empty_world install_decorators_passed []
           (Entry (parse_args [add_argument "plugin_installation_id"
                                 py_str true loc_json VNone])
                  (Err (Exception "BadRequest" "plugin_installation_id")))
           (Exception "BadRequest" "plugin_installation_id"));
    [reflexivity | reflexivity | discriminate].
Defined.

(** X9.  A request the parser rejects fails without any call to a
    service. *)
Theorem rejected_by_parser (rt : route) (ctx : Ctx) S (env : Env S) (s : S) :
  let r := run env (operation rt ctx) s in
  existsb entry_parse_failed (trace r) = true ->
  forallb (fun en => negb (entry_service en)) (trace r) = true /\
  exists x, outcome r = Err x.
Proof.
  intros r; subst r. all_routes rt; intros; try discriminate; eauto.
Qed.

(** The same at a concrete request. *)
Lemma rejected_by_parser_witness :
  let r := run (ref_env (quiet [])) (operation uninstall (example_ctx owner []))
               empty_world in
  existsb entry_parse_failed (trace r) = true /\
  forallb (fun en => negb (entry_service en)) (trace r) = true /\
  exists x, outcome r = Err x.
Proof.
  split; [reflexivity|].
  apply (rejected_by_parser uninstall (example_ctx owner []) World
           (ref_env (quiet [])) empty_world).
  reflexivity.
Defined.

(** X10.  The dynamic-options route is for admins and owners: any other
    caller gets an error before the request is parsed and before any daemon
    call (Forbidden once the decorators pass), and a successful request was
    made by an admin or owner and asked the service on behalf of the current
    user's own id and tenant with the five arguments of the request. *)
Theorem dynamic_options_admin_only (ctx : Ctx) S (env : Env S) (s : S) :
  let r := run env (PluginFetchDynamicSelectOptionsApi_get ctx) s in
  (is_admin_or_owner (current_user ctx) = false ->
     (exists x, outcome r = Err x) /\
     parsed (trace r) = None /\
     daemon_calls (trace r) = 0%nat /\
     (forallb entry_ok (trace r) = true ->
      outcome r = Err Forbidden /\ trace r = member_decorators_passed)) /\
  (forall resp, outcome r = Ok resp ->
     is_admin_or_owner (current_user ctx) = true /\
     exists args plugin_id provider action parameter provider_type options,
       parsed (trace r) = Some args /\
       dict_lookup "plugin_id" args = Some plugin_id /\
       dict_lookup "provider" args = Some provider /\
       dict_lookup "action" args = Some action /\
       dict_lookup "parameter" args = Some parameter /\
       dict_lookup "provider_type" args = Some provider_type /\
       last (trace r) =
         Some (Entry (PluginParameterService_get_dynamic_select_options
                        (current_tenant_id (current_user ctx)) (id (current_user ctx))
                        plugin_id provider action parameter provider_type)
                     (Ok options)) /\
       resp = jsonable_encoder (ODict [("options", OVal options)])).
Proof.
  intros r; subst r. split.
  - intros Hrole. execute_goal;
      repeat match goal with
      | E : negb (is_admin_or_owner _) = _ |- _ => rewrite Hrole in E; cbn in E
      end; simplify_eq; repeat split; intros; try discriminate; eauto.
  - intros resp. execute_goal; intros; simplify_eq.
    match goal with
    | E : negb ?b = false |- _ => destruct b; [|discriminate]
    end.
    split; [reflexivity|]. eauto 20.
Qed.

(** The same at a concrete request. *)
Lemma dynamic_options_admin_only_witness :
  let denied := run (ref_env (quiet options_request))
                    (PluginFetchDynamicSelectOptionsApi_get (example_ctx member []))
                    empty_world in
  let served := run (ref_env (quiet options_request))
                    (PluginFetchDynamicSelectOptionsApi_get (example_ctx owner []))
                    empty_world in
  (is_admin_or_owner member = false /\
   forallb entry_ok (trace denied) = true /\
   outcome denied = Err Forbidden) /\
  (outcome served = Ok (jsonable_encoder (ODict [("options", OVal (VStr "ok"))])) /\
   is_admin_or_owner owner = true).
Proof.
  split.
  - split; [reflexivity|]. split; [reflexivity|].
    apply (proj1 (dynamic_options_admin_only (example_ctx member []) World
                    (ref_env (quiet options_request)) empty_world));
      reflexivity.
  - split; [reflexivity|].
    apply (proj2 (dynamic_options_admin_only (example_ctx owner []) World
                    (ref_env (quiet options_request)) empty_world)
                 (jsonable_encoder (ODict [("options", OVal (VStr "ok"))]))).
    reflexivity.
Defined.



(** X12.  The preferences change validates all four enumeration fields
    before it writes anything: when one of them names no member the request
    fails with ValueError and neither the permission nor the strategy is
    written. *)
Theorem change_preferences_validates_first (ctx : Ctx) S (env : Env S) (s : S)
    (args p a : list (string * value)) :
  let r := run env (PluginChangePreferencesApi_post ctx) s in
  parsed (trace r) = Some args ->
  dict_lookup "permission" args = Some (VDict p) ->
  dict_lookup "auto_upgrade" args = Some (VDict a) ->
  member_of TenantPluginPermission.InstallPermission.of_str
    (get_or p "install_permission" (VStr "everyone")) = None \/
  member_of TenantPluginPermission.DebugPermission.of_str
    (get_or p "debug_permission" (VStr "everyone")) = None \/
  member_of TenantPluginAutoUpgradeStrategy.StrategySetting.of_str
    (get_or a "strategy_setting" (VStr "fix_only")) = None \/
  member_of TenantPluginAutoUpgradeStrategy.UpgradeMode.of_str
    (get_or a "upgrade_mode" (VStr "exclude")) = None ->
  permission_writes (trace r) = [] /\
  strategy_writes (trace r) = [] /\
  exists v cls, outcome r = Err (ValueError (NotAValid v cls)).
Proof.
  intros r; subst r.
  execute_goal; intros Hp Hperm Hauto Hbad; simplify_eq; no_dict; eauto;
    exfalso; destruct Hbad as [Hb|[Hb|[Hb|Hb]]]; congruence.
Qed.

(** The same at a concrete request. *)
Lemma change_preferences_validates_first_witness :
  let r := run (ref_env (quiet bad_mode_preferences))
               (PluginChangePreferencesApi_post (example_ctx owner [])) configured_world in
  parsed (trace r) = Some bad_mode_preferences /\
  member_of TenantPluginAutoUpgradeStrategy.UpgradeMode.of_str
    (get_or [("upgrade_mode", VStr "sometimes")] "upgrade_mode" (VStr "exclude")) = None /\
  permission_writes (trace r) = [] /\
  strategy_writes (trace r) = [] /\
  exists v cls, outcome r = Err (ValueError (NotAValid v cls)).
Proof.
  do 2 (split; [reflexivity|]).
  apply (change_preferences_validates_first (example_ctx owner []) World
           (ref_env (quiet bad_mode_preferences)) configured_world
           bad_mode_preferences [] [("upgrade_mode", VStr "sometimes")]);
    [reflexivity | reflexivity | reflexivity | right; right; right; reflexivity].
Defined.

(** X13.  When the preferences change reaches the strategy write, the
    permission write has already succeeded for the same tenant and is not
    repeated or undone; the response is success true when the strategy write
    returns true, success false with the message "Failed to set auto upgrade
    strategy" when it returns false, and its exception when it raises. *)
Theorem change_preferences_outcomes (ctx : Ctx) S (env : Env S) (s : S)
    (sw : strategy_write) :
  let r := run env (PluginChangePreferencesApi_post ctx) s in
  strategy_writes (trace r) = [sw] ->
  (exists pw, permission_writes (trace r) = [pw] /\ pw_result pw = Ok true /\
              pw_tenant_id pw = sw_tenant_id sw) /\
  outcome r =
    match sw_result sw with
    | Ok true => Ok (jsonable_encoder (ODict [("success", OVal (VBool true))]))
    | Ok false =>
        Ok (jsonable_encoder (ODict [
          ("success", OVal (VBool false));
          ("message", OVal (VStr "Failed to set auto upgrade strategy"))]))
    | Err x => Err x
    end.
Proof.
  intros r; subst r.
  execute_goal; intros; simplify_eq; cbn; eauto.
Qed.

(** The same at a concrete request. *)
Lemma change_preferences_outcomes_witness :
  let r := run (ref_env (quiet bad_time_preferences))
               (PluginChangePreferencesApi_post (example_ctx owner [])) empty_world in
  let sw := mkStrategyWrite "tenant-1"
              TenantPluginAutoUpgradeStrategy.StrategySetting.FIX_ONLY (VStr "noon")
              TenantPluginAutoUpgradeStrategy.UpgradeMode.EXCLUDE (VList []) (VList [])
              (Ok false) in
  strategy_writes (trace r) = [sw] /\
  (exists pw, permission_writes (trace r) = [pw] /\ pw_result pw = Ok true /\
              pw_tenant_id pw = sw_tenant_id sw) /\
  outcome r = Ok (jsonable_encoder (ODict [
    ("success", OVal (VBool false));
    ("message", OVal (VStr "Failed to set auto upgrade strategy"))])).
Proof.
  split; [reflexivity|].
  apply (change_preferences_outcomes (example_ctx owner []) World
           (ref_env (quiet bad_time_preferences)) empty_world
           (mkStrategyWrite "tenant-1"
              TenantPluginAutoUpgradeStrategy.StrategySetting.FIX_ONLY (VStr "noon")
              TenantPluginAutoUpgradeStrategy.UpgradeMode.EXCLUDE (VList []) (VList [])
              (Ok false))).
  reflexivity.
Defined.



(** X15.  An upload whose request has no file under the expected field
    fails with KeyError on that field once the decorators pass, with no read
    and no daemon call. *)
Theorem upload_without_file (k : upload_kind) (ctx : Ctx) S (env : Env S) (s : S) :
  let r := run env (upload_operation k ctx) s in
  dict_lookup (upload_field k) (files ctx) = None ->
  (exists x, outcome r = Err x) /\
  forallb (fun en => negb (entry_file_read en) && negb (entry_daemon en)) (trace r) = true /\
  (forallb entry_ok (trace r) = true -> outcome r = Err (KeyError (upload_field k))).
Proof.
  intros r Hnone; subst r.
  destruct k; cbn [upload_operation upload_field] in *; execute_goal; simplify_eq;
    repeat split; intros; try discriminate; eauto.
Qed.

(** The same at a concrete request. *)
Lemma upload_without_file_witness :
  let ctx := example_ctx owner [("bundle", small_bundle)] in
  let r := run (ref_env (quiet [])) (upload_operation pkg ctx) empty_world in
  dict_lookup (upload_field pkg) (files ctx) = None /\
  forallb entry_ok (trace r) = true /\
  outcome r = Err (KeyError "pkg").
Proof.
  split; [reflexivity|]. split; [reflexivity|].
  apply (upload_without_file pkg (example_ctx owner [("bundle", small_bundle)]) World
           (ref_env (quiet [])) empty_world);
    reflexivity.
Defined.

(** X16.  For the same stored permission (or none), the permission object
    inside the fetched preferences is the object the permission-fetch route
    returns, with the fields install_permission and debug_permission. *)
Theorem permission_fetches_agree (ctx : Ctx)
    S1 (env1 : Env S1) (s1 : S1) S2 (env2 : Env S2) (s2 : S2)
    (t : string) (stored : option TenantPluginPermission.t) (resp : response) :
  let r1 := run env1 (PluginFetchPermissionApi_get ctx) s1 in
  let r2 := run env2 (PluginFetchPreferencesApi_get ctx) s2 in
  permission_reads (trace r1) = [(t, Ok stored)] ->
  permission_reads (trace r2) = [(t, Ok stored)] ->
  outcome r2 = Ok resp ->
  exists permission_dict auto_upgrade_dict,
    outcome r1 = Ok (jsonable_encoder (ODict permission_dict)) /\
    resp = jsonable_encoder (ODict [
      ("permission", ODict permission_dict);
      ("auto_upgrade", ODict auto_upgrade_dict)]) /\
    keys permission_dict = ["install_permission"; "debug_permission"] /\
    keys auto_upgrade_dict =
      ["strategy_setting"; "upgrade_time_of_day"; "upgrade_mode";
       "exclude_plugins"; "include_plugins"].
Proof.
  cbv zeta.
  remember (run env1 _ s1) as r1 eqn:H1.
  remember (run env2 _ s2) as r2 eqn:H2.
  execute_in H1 env1; execute_in H2 env2; subst r1 r2; units; cbn;
    intros; simplify_eq;
    repeat match goal with
    | o : option TenantPluginAutoUpgradeStrategy.t |- _ => destruct o
    end; do 2 eexists; repeat split; reflexivity.
Qed.

(** The same at a concrete request. *)
Lemma permission_fetches_agree_witness :
  let ctx := example_ctx member [] in
  let r1 := run (ref_env (quiet [])) (PluginFetchPermissionApi_get ctx) stored_world in
  let r2 := run (ref_env (quiet [])) (PluginFetchPreferencesApi_get ctx) stored_world in
  let stored := Some (TenantPluginPermission.mk
                        TenantPluginPermission.InstallPermission.NOONE
                        TenantPluginPermission.DebugPermission.ADMIN_OWNER_ONLY) in
  permission_reads (trace r1) = [("tenant-1", Ok stored)] /\
  permission_reads (trace r2) = [("tenant-1", Ok stored)] /\
  exists resp, outcome r2 = Ok resp /\
  exists permission_dict auto_upgrade_dict,
    outcome r1 = Ok (jsonable_encoder (ODict permission_dict)) /\
    resp = jsonable_encoder (ODict [
      ("permission", ODict permission_dict);
      ("auto_upgrade", ODict auto_upgrade_dict)]) /\
    keys permission_dict = ["install_permission"; "debug_permission"] /\
    keys auto_upgrade_dict =
      ["strategy_setting"; "upgrade_time_of_day"; "upgrade_mode";
       "exclude_plugins"; "include_plugins"].
Proof.
  split; [vm_compute; reflexivity|]. split; [vm_compute; reflexivity|].
  eexists. split; [vm_compute; reflexivity|].
  apply (permission_fetches_agree (example_ctx member [])
           World (ref_env (quiet [])) stored_world
           World (ref_env (quiet [])) stored_world "tenant-1"
           (Some (TenantPluginPermission.mk
                    TenantPluginPermission.InstallPermission.NOONE
                    TenantPluginPermission.DebugPermission.ADMIN_OWNER_ONLY)));
    vm_compute; reflexivity.
Defined.



(** X18.  The plugin listing declares page and page_size optional with
    defaults 1 and 256: when the parser answers with the declared default of
    each argument, as it does for a request that sends neither, the daemon
    is asked for page 1 with page size 256. *)
Theorem plugin_list_defaults (ctx : Ctx) S (env : Env S) (s : S)
    (arguments : list Argument) :
  let r := run env (PluginListApi_get ctx) s in
  let tenant_id := current_tenant_id (current_user ctx) in
  parse_calls (trace r) = [(arguments, Ok (defaults_of arguments))] ->
  map arg_name arguments = ["page"; "page_size"] /\
  forallb (fun a => negb (arg_required a)) arguments = true /\
  (forall en, In en (trace r) -> entry_daemon en = true ->
     exists ans,
       en = Entry (PluginService_list_with_total tenant_id (VInt 1) (VInt 256)) ans) /\
  (forallb (fun en => entry_daemon en || entry_ok en) (trace r) = true ->
   daemon_calls (trace r) = 1%nat).
Proof.
  intros r tenant_id; subst r tenant_id.
  execute_goal; intros Hcalls; simplify_eq; cbn in *; simplify_eq.
  all: do 2 (split; [reflexivity|]).
  all: split; [|intros; try discriminate; reflexivity].
  all: intros en Hin Hd;
    repeat match goal with
    | Hin : _ \/ _ |- _ => destruct Hin as [<-|Hin]
    | Hin : False |- _ => destruct Hin
    end; try discriminate; eauto.
Qed.

(** The same at a concrete request. *)
Lemma plugin_list_defaults_witness :
  let r := run (ref_env (quiet [])) (PluginListApi_get (example_ctx member [])) empty_world in
  let arguments := [add_argument "page" py_int false loc_args (VInt 1);
                    add_argument "page_size" py_int false loc_args (VInt 256)] in
  parse_calls (trace r) = [(arguments, Ok (defaults_of arguments))] /\
  forallb (fun en => entry_daemon en || entry_ok en) (trace r) = true /\
  daemon_calls (trace r) = 1%nat.
Proof.
  split; [reflexivity|]. split; [reflexivity|].
  apply (plugin_list_defaults (example_ctx member []) World (ref_env (quiet [])) empty_world
           [add_argument "page" py_int false loc_args (VInt 1);
            add_argument "page_size" py_int false loc_args (VInt 256)]);
    reflexivity.
Defined.


(** X19.  A successful upgrade asked the daemon with the original
    identifier first and the new one second (then repo, version and package
    for GitHub), each as parsed, and returns the daemon's answer. *)
Theorem upgrade_forwards_pair (src : upgrade_source) (ctx : Ctx) S (env : Env S) (s : S)
    (resp : response) :
  let r := run env (upgrade_operation src ctx) s in
  let tenant_id := current_tenant_id (current_user ctx) in
  outcome r = Ok resp ->
  exists args original new upgraded,
    parsed (trace r) = Some args /\
    dict_lookup "original_plugin_unique_identifier" args = Some original /\
    dict_lookup "new_plugin_unique_identifier" args = Some new /\
    resp = jsonable_encoder (OVal upgraded) /\
    match src with
    | via_marketplace =>
        last (trace r) =
          Some (Entry (PluginService_upgrade_plugin_with_marketplace
                         tenant_id original new) (Ok upgraded))
    | via_github =>
        exists repo version package,
          dict_lookup "repo" args = Some repo /\
          dict_lookup "version" args = Some version /\
          dict_lookup "package" args = Some package /\
          last (trace r) =
            Some (Entry (PluginService_upgrade_plugin_with_github
                           tenant_id original new repo version package) (Ok upgraded))
    end.
Proof.
  intros r tenant_id; subst r tenant_id.
  destruct src; cbn [upgrade_operation]; execute_goal; intros; simplify_eq; eauto 20.
Qed.

(** The same at a concrete request. *)
Lemma upgrade_forwards_pair_witness :
  let r := run (ref_env (quiet upgrade_request))
               (upgrade_operation via_marketplace (example_ctx owner [])) empty_world in
  outcome r = Ok (jsonable_encoder (OVal (VStr "ok"))) /\
  exists args original new upgraded,
    parsed (trace r) = Some args /\
    dict_lookup "original_plugin_unique_identifier" args = Some original /\
    dict_lookup "new_plugin_unique_identifier" args = Some new /\
    jsonable_encoder (OVal (VStr "ok")) = jsonable_encoder (OVal upgraded) /\
    last (trace r) =
      Some (Entry (PluginService_upgrade_plugin_with_marketplace
                     "tenant-1" original new) (Ok upgraded)).
Proof.
  split; [reflexivity|].
  apply (upgrade_forwards_pair via_marketplace (example_ctx owner []) World
           (ref_env (quiet upgrade_request)) empty_world
           (jsonable_encoder (OVal (VStr "ok")))).
  reflexivity.
Defined.
